(** * DepositBox: the wallet deposit form of the WorkiT web client

    A shallow embedding of [workit/src/components/payment/DepositBox.tsx].

    The component owns five pieces of React state (amount text, selected
    method id, processing flag, error message, success flag), one input
    handler ([handleAmountChange]), one asynchronous submit handler
    ([handleSubmit]) and a render function.  The embedding keeps that
    shape:

    - module [JS] models the language built-ins the component calls:
      strings as sequences of code units, [String.prototype.split] on a
      one-character separator, the global replace of the class
      [[^0-9.]], truthiness, and [parseFloat] with binary64 results
      ([spec_float] at precision 53, as in the IEEE 754 specification of
      the Standard Library);
    - module [DepositBox] models the component: state setters are effects
      appended to a trace, the [await] of the deposit operation is a
      resumption, the two-second timer is a scheduled callback, and the
      render function produces the view the handlers are attached to. *)

From Stdlib Require Import ZArith List Bool Ascii String Lia.
From Stdlib Require Import Floats.SpecFloat.
Import ListNotations.

Local Open Scope string_scope.
Local Open Scope bool_scope.
Local Open Scope list_scope.

(* ================================================================== *)
(** * Built-ins of the host language *)
(* ================================================================== *)

Module JS.

(** ** Strings *)

(** A string is a sequence of code units; the model covers the code units
    below 256, which is every unit the component itself can tell apart
    (digits, the point, the letters of [Infinity], white space). *)

Definition isDigit (c : ascii) : bool :=
  (Ascii.leb "0" c) && (Ascii.leb c "9").

Definition isPoint (c : ascii) : bool := Ascii.eqb c ".".

(** A string is truthy exactly when it is not empty. *)
Definition truthy (s : string) : bool :=
  match s with
  | EmptyString => false
  | String _ _ => true
  end.

Fixpoint filter (keep : ascii -> bool) (s : string) : string :=
  match s with
  | EmptyString => EmptyString
  | String c s' => if keep c then String c (filter keep s') else filter keep s'
  end.

(** [s.replace(/[^0-9.]/g, '')]: every code unit outside the class
    [0-9.] is removed, the others stay in order. *)
Definition replace_non_numeric (s : string) : string :=
  filter (fun c => isDigit c || isPoint c) s.

(** [s.split(sep)] for a separator of one code unit.  The result is never
    empty: ["".split(".")] is [[""]]. *)
Fixpoint split (sep : ascii) (s : string) : list string :=
  match s with
  | EmptyString => [EmptyString]
  | String c s' =>
      if Ascii.eqb c sep then EmptyString :: split sep s'
      else match split sep s' with
           | h :: t => String c h :: t
           | [] => [String c EmptyString]
           end
  end.

(** ** Numbers *)

(** A Number is an IEEE 754 binary64 value. *)
Definition number : Type := spec_float.

Definition prec : Z := 53.
Definition emax : Z := 1024.

Definition NaN : number := S754_nan.
Definition Infinity : number := S754_infinity false.
Definition zero : number := S754_zero false.

Definition isNaN (x : number) : bool :=
  match x with
  | S754_nan => true
  | _ => false
  end.

(** [x <= y] and [x > y]; both are false when an operand is NaN. *)
Definition le (x y : number) : bool := SFleb x y.
Definition gt (x y : number) : bool := SFltb y x.

(** ** parseFloat *)

(** White space and line terminators that [parseFloat] skips at the
    start of its argument (the ones below code unit 256). *)
Definition isWhiteSpace (c : ascii) : bool :=
  let n := nat_of_ascii c in
  (Nat.eqb n 9) || (Nat.eqb n 10) || (Nat.eqb n 11) || (Nat.eqb n 12)
  || (Nat.eqb n 13) || (Nat.eqb n 32) || (Nat.eqb n 160).

Fixpoint trimStart (s : string) : string :=
  match s with
  | EmptyString => EmptyString
  | String c s' => if isWhiteSpace c then trimStart s' else s
  end.

(** The longest run of decimal digits at the start of [s], and the rest. *)
Fixpoint takeDigits (s : string) : string * string :=
  match s with
  | EmptyString => (EmptyString, EmptyString)
  | String c s' =>
      if isDigit c
      then let (ds, rest) := takeDigits s' in (String c ds, rest)
      else (EmptyString, s)
  end.

Definition digitValue (c : ascii) : Z := Z.of_nat (nat_of_ascii c) - 48.

(** The mathematical value of a run of decimal digits. *)
Fixpoint decimalValue (acc : Z) (ds : string) : Z :=
  match ds with
  | EmptyString => acc
  | String c ds' => decimalValue (10 * acc + digitValue c) ds'
  end.

(** [ExponentPart_opt]: an exponent indicator followed by an optionally
    signed, non-empty run of digits; anything else is not part of the
    literal and contributes exponent 0. *)
Definition exponentPart (s : string) : Z :=
  match s with
  | String c r =>
      if Ascii.eqb c "e" || Ascii.eqb c "E" then
        let '(neg, r1) :=
          match r with
          | String sg r' =>
              if Ascii.eqb sg "+" then (false, r')
              else if Ascii.eqb sg "-" then (true, r')
              else (false, r)
          | EmptyString => (false, r)
          end in
        let (ds, _) := takeDigits r1 in
        if truthy ds
        then (if neg then - decimalValue 0 ds else decimalValue 0 ds)%Z
        else 0%Z
      else 0%Z
  | EmptyString => 0%Z
  end.

(** The Number value for [(-1)^neg * m * 10^e10]: the binary64 value
    nearest to it, ties to even, overflowing to an infinity.  The
    quotient of the two integers is rounded once, by the division of the
    IEEE specification. *)
Definition roundMV (neg : bool) (m : Z) (e10 : Z) : number :=
  match m with
  | Zpos p =>
      SFdiv prec emax
        (S754_finite neg (p * Z.to_pos (10 ^ Z.max e10 0)) 0)
        (S754_finite false (Z.to_pos (10 ^ Z.max (- e10) 0)) 0)
  | _ => S754_zero neg
  end.

(** [StrUnsignedDecimalLiteral], longest matching prefix:
    [Infinity], or [digits . digits? exponent?], or [. digits exponent?],
    or [digits exponent?].  No matching prefix gives NaN. *)
Definition strUnsignedDecimalLiteral (neg : bool) (s : string) : number :=
  if String.prefix "Infinity" s then S754_infinity neg
  else
    let (ip, r) := takeDigits s in
    match r with
    | String c r' =>
        if isPoint c then
          let (fp, r'') := takeDigits r' in
          if truthy ip || truthy fp
          then roundMV neg (decimalValue 0 (ip ++ fp)%string)
                 (exponentPart r'' - Z.of_nat (String.length fp))
          else NaN
        else if truthy ip then roundMV neg (decimalValue 0 ip) (exponentPart r)
        else NaN
    | EmptyString =>
        if truthy ip then roundMV neg (decimalValue 0 ip) 0 else NaN
    end.

Definition parseFloat (s : string) : number :=
  match trimStart s with
  | String c r =>
      if Ascii.eqb c "+" then strUnsignedDecimalLiteral false r
      else if Ascii.eqb c "-" then strUnsignedDecimalLiteral true r
      else strUnsignedDecimalLiteral false (String c r)
  | EmptyString => NaN
  end.

End JS.

(* ================================================================== *)
(** * The component *)
(* ================================================================== *)

Module DepositBox.
Import JS.

(** ** Collaborators *)

(** An entry of [paymentMethods], as the render function reads it. *)
Record PaymentMethod : Type := {
  id : string;
  name : string;
  type : string;
  last4 : option string;
  isDefault : bool
}.

(** What the component reads from its contexts: the payment methods of
    [usePayment] and the lookup [t] of [useLanguage].  The deposit
    operation itself is external; a call to it is an interaction of the
    submit handler (see [task]).  Balance and theme only reach the
    markup and are left out. *)
Record Context : Type := {
  paymentMethods : list PaymentMethod;
  t : string -> string
}.

(** [DepositBoxProps]: both callbacks are optional; the field tells
    whether the callback was passed.  A call of a callback is an effect
    of the trace, and callbacks return normally. *)
Record DepositBoxProps : Type := {
  onClose : bool;
  onSuccess : bool
}.

(** ** State *)

Record State : Type := {
  amount : string;
  selectedMethodId : string;
  isProcessing : bool;
  error : option string;
  success : bool
}.

(** The arrow function handed to [setTimeout] in [handleSubmit]. *)
Inductive TimerCallback : Type :=
| ResetForm.

(** The exception a handler can raise by itself: reading a property of
    [undefined] or [null]. *)
Inductive exception : Type :=
| TypeError.

(** What a handler does to the world, in program order.  [Reject] is the
    end of an asynchronous handler whose body threw: its promise is
    rejected with the exception, which nothing catches. *)
Inductive effect : Type :=
| PreventDefault
| SetAmount (v : string)
| SetSelectedMethodId (v : string)
| SetIsProcessing (b : bool)
| SetError (e : option string)
| SetSuccess (b : bool)
| CallOnSuccess (n : number)
| CallOnClose
| SetTimeout (cb : TimerCallback) (ms : Z)
| Reject (e : exception).

Definition apply (e : effect) (st : State) : State :=
  match e with
  | SetAmount v =>
      {| amount := v; selectedMethodId := selectedMethodId st;
         isProcessing := isProcessing st; error := error st;
         success := success st |}
  | SetSelectedMethodId v =>
      {| amount := amount st; selectedMethodId := v;
         isProcessing := isProcessing st; error := error st;
         success := success st |}
  | SetIsProcessing b =>
      {| amount := amount st; selectedMethodId := selectedMethodId st;
         isProcessing := b; error := error st; success := success st |}
  | SetError e =>
      {| amount := amount st; selectedMethodId := selectedMethodId st;
         isProcessing := isProcessing st; error := e;
         success := success st |}
  | SetSuccess b =>
      {| amount := amount st; selectedMethodId := selectedMethodId st;
         isProcessing := isProcessing st; error := error st;
         success := b |}
  | PreventDefault | CallOnSuccess _ | CallOnClose | SetTimeout _ _
  | Reject _ => st
  end.

(** The state after a batch of effects: setters apply in call order. *)
Fixpoint run (effs : list effect) (st : State) : State :=
  match effs with
  | [] => st
  | e :: effs' => run effs' (apply e st)
  end.

(** ** Mount *)

Definition useState_initial : State :=
  {| amount := ""; selectedMethodId := ""; isProcessing := false;
     error := None; success := false |}.

Definition defaultMethod (ctx : Context) : option PaymentMethod :=
  find isDefault (paymentMethods ctx).

(** The initialiser run once on the first render: pick the default
    method when there is one and nothing is selected yet. *)
Definition selectDefault (ctx : Context) (st : State) : list effect :=
  match defaultMethod ctx with
  | Some m =>
      if negb (truthy (selectedMethodId st))
      then [SetSelectedMethodId (id m)]
      else []
  | None => []
  end.

Definition mount (ctx : Context) : State :=
  run (selectDefault ctx useState_initial) useState_initial.

(** ** handleAmountChange *)

Definition handleAmountChange (raw : string) : list effect :=
  (* Only allow numbers and decimal point *)
  let value := replace_non_numeric raw in
  (* Prevent multiple decimal points *)
  if (2 <? List.length (split "." value))%nat then []
  else
    (* Limit to 2 decimal places *)
    let parts := split "." value in
    if match nth_error parts 1 with
       | Some p => truthy p && (2 <? String.length p)%nat
       | None => false
       end
    then []
    else [SetAmount value].

(** ** handleSubmit *)

(** The value a rejected deposit carries ([catch (error: any)]), as far
    as the catch clause can tell values apart: [undefined] or [null], on
    which reading [error.message] throws a TypeError; or any other value,
    with its [message] property, [None] when the value has none (a
    primitive, an object without the property).  A message, when there
    is one, is a string, as the type of the error state has it. *)
Inductive failure : Type :=
| Nullish
| Thrown (message : option string).

Inductive settled : Type :=
| Resolved
| Rejected (err : failure).

(** An asynchronous handler with one [await]: either it returns before
    calling the deposit operation, or it has called
    [deposit(numAmount, methodId)] and resumes when the call settles. *)
Inductive task : Type :=
| Finished (effs : list effect)
| Awaiting (effs : list effect) (numAmount : number) (methodId : string)
           (resume : settled -> list effect).

(** [setError(error.message || t('deposit_error'))]: the effects of the
    catch clause and the exception it ends with, if any.  On [undefined]
    or [null] the property read throws before [setError] is reached. *)
Definition catch_clause (ctx : Context) (err : failure)
    : list effect * option exception :=
  match err with
  | Nullish => ([], Some TypeError)
  | Thrown message =>
      ([SetError (Some match message with
                       | Some m =>
                           if truthy m then m else t ctx "deposit_error"
                       | None => t ctx "deposit_error"
                       end)],
       None)
  end.

Definition finally_clause : list effect := [SetIsProcessing false].

(** The rest of the [try] block once the awaited call has settled,
    followed by [catch] on rejection and by [finally] either way; an
    exception of the catch clause leaves the handler after the finally
    clause.  [numAmount] is the constant captured before the call. *)
Definition afterAwait (ctx : Context) (props : DepositBoxProps)
    (numAmount : number) (outcome : settled) : list effect :=
  match outcome with
  | Resolved =>
      [SetSuccess true]
      ++ (if onSuccess props then [CallOnSuccess numAmount] else [])
      (* Reset form after success *)
      ++ [SetTimeout ResetForm 2000]
      ++ finally_clause
  | Rejected err =>
      match catch_clause ctx err with
      | (effs, None) => effs ++ finally_clause
      | (effs, Some e) => effs ++ finally_clause ++ [Reject e]
      end
  end.

Definition handleSubmit (ctx : Context) (props : DepositBoxProps)
    (st : State) : task :=
  let entry := [PreventDefault; SetError None] in
  (* Validate amount *)
  let numAmount := parseFloat (amount st) in
  if isNaN numAmount || le numAmount zero then
    Finished (entry ++ [SetError (Some (t ctx "invalid_amount"))]
                    ++ finally_clause)
  (* Validate payment method *)
  else if negb (truthy (selectedMethodId st))
          && (0 <? List.length (paymentMethods ctx))%nat then
    Finished (entry ++ [SetError (Some (t ctx "select_payment_method"))]
                    ++ finally_clause)
  else
    (* Process deposit *)
    Awaiting (entry ++ [SetIsProcessing true])
      numAmount (selectedMethodId st)
      (afterAwait ctx props numAmount).

(** The body of the timer callback. *)
Definition runTimer (props : DepositBoxProps) (cb : TimerCallback)
    : list effect :=
  match cb with
  | ResetForm =>
      [SetAmount ""; SetSuccess false]
      ++ (if onClose props then [CallOnClose] else [])
  end.

(** ** Render *)

(** The [disabled] attribute of the submit button. *)
Definition submitDisabled (st : State) : bool :=
  isProcessing st || negb (truthy (amount st))
  || le (parseFloat (amount st)) zero.

Record FormView : Type := {
  banner : option string;
  inputValue : string;
  inputDisabled : bool;
  methodEntries : list (PaymentMethod * bool);
  buttonDisabled : bool;
  buttonBusy : bool
}.

Inductive View : Type :=
| Confirmation (deposited : number)
| Form (f : FormView).

Definition render (ctx : Context) (st : State) : View :=
  if success st then Confirmation (parseFloat (amount st))
  else Form {|
    banner := match error st with
              | Some e => if truthy e then Some e else None
              | None => None
              end;
    inputValue := amount st;
    inputDisabled := isProcessing st;
    methodEntries :=
      map (fun m => (m, String.eqb (selectedMethodId st) (id m)))
          (paymentMethods ctx);
    buttonDisabled := submitDisabled st;
    buttonBusy := isProcessing st
  |}.

(** ** Events of the rendered form *)

(** What the user can do to the markup.  A control that is not rendered
    or that is disabled delivers nothing to its handler. *)
Inductive Event : Type :=
| Change (raw : string)
| ClickMethod (i : nat)
| Submit
| ClickClose.

Definition handleEvent (ctx : Context) (props : DepositBoxProps)
    (st : State) (ev : Event) : task :=
  match ev, render ctx st with
  | ClickClose, _ => Finished (if onClose props then [CallOnClose] else [])
  | Change raw, Form f =>
      if inputDisabled f then Finished []
      else Finished (handleAmountChange raw)
  | ClickMethod i, Form f =>
      match nth_error (methodEntries f) i with
      | Some (m, _) => Finished [SetSelectedMethodId (id m)]
      | None => Finished []
      end
  | Submit, Form f =>
      if buttonDisabled f then Finished []
      else handleSubmit ctx props st
  | _, Confirmation _ => Finished []
  end.

(** ** Observations on traces *)

(** The effects of a task up to its return or its [await]. *)
Definition before (p : task) : list effect :=
  match p with
  | Finished effs => effs
  | Awaiting effs _ _ _ => effs
  end.

(** The calls of the deposit operation a task makes, with arguments. *)
Definition depositCalls (p : task) : list (number * string) :=
  match p with
  | Finished _ => []
  | Awaiting _ n m _ => [(n, m)]
  end.

Fixpoint onSuccessCalls (effs : list effect) : list number :=
  match effs with
  | [] => []
  | CallOnSuccess n :: effs' => n :: onSuccessCalls effs'
  | _ :: effs' => onSuccessCalls effs'
  end.

Fixpoint onCloseCalls (effs : list effect) : nat :=
  match effs with
  | [] => 0
  | CallOnClose :: effs' => S (onCloseCalls effs')
  | _ :: effs' => onCloseCalls effs'
  end.

Fixpoint timeouts (effs : list effect) : list (TimerCallback * Z) :=
  match effs with
  | [] => []
  | SetTimeout cb ms :: effs' => (cb, ms) :: timeouts effs'
  | _ :: effs' => timeouts effs'
  end.

(** Does the trace call [setIsProcessing(true)] / [setSuccess(true)]? *)
Definition raisesProcessing (effs : list effect) : bool :=
  existsb (fun e => match e with SetIsProcessing true => true | _ => false end)
          effs.

Definition raisesSuccess (effs : list effect) : bool :=
  existsb (fun e => match e with SetSuccess true => true | _ => false end)
          effs.

(** Effects that leave the selected method alone. *)
Definition keepsSelection (effs : list effect) : bool :=
  forallb (fun e => match e with SetSelectedMethodId _ => false | _ => true end)
          effs.

(** ** Reachable states *)

(** The states the component can be in under a fixed context: the
    mounted state, closed under the effects of every handler, of every
    resumption of a submit that reached the deposit call, and of the
    timer callback.  Handlers are allowed to fire in any state, which
    covers every order in which the browser can deliver events. *)
Inductive reachable (ctx : Context) (props : DepositBoxProps)
    : State -> Prop :=
| reach_mount : reachable ctx props (mount ctx)
| reach_change st raw :
    reachable ctx props st ->
    reachable ctx props (run (handleAmountChange raw) st)
| reach_select st m :
    reachable ctx props st ->
    In m (paymentMethods ctx) ->
    reachable ctx props (run [SetSelectedMethodId (id m)] st)
| reach_submit st :
    reachable ctx props st ->
    reachable ctx props (run (before (handleSubmit ctx props st)) st)
| reach_settle st0 st pre n mid resume outcome :
    reachable ctx props st0 ->
    handleSubmit ctx props st0 = Awaiting pre n mid resume ->
    reachable ctx props st ->
    reachable ctx props (run (resume outcome) st)
| reach_timer st cb :
    reachable ctx props st ->
    reachable ctx props (run (runTimer props cb) st).

End DepositBox.

(* ================================================================== *)
(** * The contract in the words of the specification *)
(* ================================================================== *)

Module Contract.
Import JS DepositBox.

(** ** updateAmount *)

(** The number of decimal points of a text. *)
Fixpoint countPoints (s : string) : nat :=
  match s with
  | EmptyString => 0
  | String c s' => if isPoint c then S (countPoints s') else countPoints s'
  end.

(** What follows the first decimal point, when there is one. *)
Fixpoint afterPoint (s : string) : option string :=
  match s with
  | EmptyString => None
  | String c s' => if isPoint c then Some s' else afterPoint s'
  end.

(** The number of digits after the decimal point. *)
Definition digitsAfterPoint (s : string) : nat :=
  match afterPoint s with
  | Some f => String.length (filter isDigit f)
  | None => 0
  end.

(** Every code unit of [s] satisfies [p]. *)
Fixpoint all (p : ascii -> bool) (s : string) : bool :=
  match s with
  | EmptyString => true
  | String c s' => p c && all p s'
  end.

(** [updateAmount(rawInput)] as the specification words it: strip, then
    reject (keep the current text) on a second decimal point or on a
    third fractional digit, else replace. *)
Definition updateAmount (current rawInput : string) : string :=
  let stripped := replace_non_numeric rawInput in
  if (1 <? countPoints stripped)%nat || (2 <? digitsAfterPoint stripped)%nat
  then current
  else stripped.

(** ** Amount validity *)

(** A positive finite number. *)
Definition positiveFinite (n : number) : bool :=
  match n with
  | S754_finite false _ _ => true
  | _ => false
  end.

(** ** Failure message *)

(** The failure's message when one is present, the fallback otherwise;
    an empty message counts as absent. *)
Definition failureMessage (err : failure) (fallback : string) : string :=
  match err with
  | Thrown (Some m) => if String.eqb m "" then fallback else m
  | _ => fallback
  end.

(** ** Submit control *)

(** Disabled when processing, or the amount text is empty, or the parsed
    amount is not greater than zero. *)
Definition submitControlDisabled (st : State) : bool :=
  isProcessing st
  || String.eqb (amount st) ""
  || negb (gt (parseFloat (amount st)) zero).

End Contract.

(* ================================================================== *)
(** * Sample collaborators and inputs *)
(* ================================================================== *)

Module Sample.
Import JS DepositBox.

(** A lookup that answers every key with the key itself. *)
Definition keys : string -> string := fun key => key.

Definition card : PaymentMethod :=
  {| id := "m1"; name := "Visa"; type := "credit_card";
     last4 := Some "4242"; isDefault := true |}.

Definition paypal : PaymentMethod :=
  {| id := "m2"; name := "PayPal"; type := "paypal";
     last4 := None; isDefault := false |}.

Definition noMethods : Context := {| paymentMethods := []; t := keys |}.
Definition oneCard : Context := {| paymentMethods := [card]; t := keys |}.
Definition onePaypal : Context := {| paymentMethods := [paypal]; t := keys |}.

Definition bothCallbacks : DepositBoxProps :=
  {| onClose := true; onSuccess := true |}.
Definition noCallbacks : DepositBoxProps :=
  {| onClose := false; onSuccess := false |}.

Fixpoint zeros (n : nat) : string :=
  match n with
  | O => EmptyString
  | S n' => String "0" (zeros n')
  end.

(** A one followed by 309 zeros: ten to the 309, beyond the largest
    finite binary64 value. *)
Definition tenTo309 : string := String "1" (zeros 309).

(** The state with amount text [a], everything else as at mount. *)
Definition typed (ctx : Context) (a : string) : State :=
  run (handleAmountChange a) (mount ctx).

Definition withProcessing (st : State) : State :=
  DepositBox.apply (SetIsProcessing true) st.

(** A state that still carries the id of a method while none is
    listed. *)
Definition staleSelection : State :=
  DepositBox.apply (SetSelectedMethodId "m1") (typed noMethods "5").

Definition cardAndPaypal : Context :=
  {| paymentMethods := [card; paypal]; t := keys |}.

End Sample.

(* ================================================================== *)
(** * The mounted component over time *)
(* ================================================================== *)

Module Lifecycle.
Import JS DepositBox Contract.

(** ** Amount texts *)

(** The shape [handleAmountChange] lets through: digits and points only,
    at most one point, at most two digits after it. *)
Definition amountText (s : string) : bool :=
  all (fun c => isDigit c || isPoint c) s
  && (countPoints s <=? 1)%nat
  && (digitsAfterPoint s <=? 2)%nat.

(** Some code unit of [s] satisfies [p]. *)
Fixpoint any (p : ascii -> bool) (s : string) : bool :=
  match s with
  | EmptyString => false
  | String c s' => p c || any p s'
  end.

Definition isNonZeroDigit (c : ascii) : bool :=
  isDigit c && negb (Ascii.eqb c "0").

Definition hasNonZeroDigit (s : string) : bool := any isNonZeroDigit s.

(** ** Markup *)

(** The payment methods drawn as selected. *)
Definition highlighted (v : View) : list PaymentMethod :=
  match v with
  | Form f => map fst (List.filter snd (methodEntries f))
  | Confirmation _ => []
  end.

(** ** The component and its environment *)

(** Calls that leave the component. *)
Inductive call : Type :=
| Deposited (n : number) (methodId : string)
| Notified (n : number)
| Closed.

(** The component state, the deposit calls that have not settled yet
    (arguments and resumption), the timers that have not fired yet, and
    the calls made so far, oldest first. *)
Record World : Type := {
  state : State;
  inflight : list (number * string * (settled -> list effect));
  timers : list (TimerCallback * Z);
  calls : list call
}.

Fixpoint callbacks (effs : list effect) : list call :=
  match effs with
  | [] => []
  | CallOnSuccess n :: effs' => Notified n :: callbacks effs'
  | CallOnClose :: effs' => Closed :: callbacks effs'
  | _ :: effs' => callbacks effs'
  end.

(** A batch of effects: setters reach the state, [setTimeout] arms a
    timer, callbacks are called. *)
Definition perform (effs : list effect) (w : World) : World :=
  {| state := run effs (state w);
     inflight := inflight w;
     timers := timers w ++ timeouts effs;
     calls := calls w ++ callbacks effs |}.

(** The deposit call of a task that awaits. *)
Definition launch (p : task) (w : World) : World :=
  match p with
  | Finished _ => w
  | Awaiting _ n m resume =>
      {| state := state w;
         inflight := inflight w ++ [(n, m, resume)];
         timers := timers w;
         calls := calls w ++ [Deposited n m] |}
  end.

Fixpoint remove_nth {A : Type} (i : nat) (l : list A) : list A :=
  match l, i with
  | [], _ => []
  | _ :: l', O => l'
  | x :: l', S i' => x :: remove_nth i' l'
  end.

(** What can happen next: the user acts on the markup, a pending deposit
    call settles, a pending timer fires. *)
Inductive action : Type :=
| User (ev : Event)
| Settle (i : nat) (outcome : settled)
| Fire (i : nat).

(** One action; [None] when there is no such pending call or timer. *)
Definition step (ctx : Context) (props : DepositBoxProps)
    (a : action) (w : World) : option World :=
  match a with
  | User ev =>
      let p := handleEvent ctx props (state w) ev in
      Some (launch p (perform (before p) w))
  | Settle i outcome =>
      match nth_error (inflight w) i with
      | Some (_, _, resume) =>
          Some (perform (resume outcome)
                  {| state := state w;
                     inflight := remove_nth i (inflight w);
                     timers := timers w;
                     calls := calls w |})
      | None => None
      end
  | Fire i =>
      match nth_error (timers w) i with
      | Some (cb, _) =>
          Some (perform (runTimer props cb)
                  {| state := state w;
                     inflight := inflight w;
                     timers := remove_nth i (timers w);
                     calls := calls w |})
      | None => None
      end
  end.

Fixpoint steps (ctx : Context) (props : DepositBoxProps)
    (actions : list action) (w : World) : option World :=
  match actions with
  | [] => Some w
  | a :: rest =>
      match step ctx props a w with
      | Some w' => steps ctx props rest w'
      | None => None
      end
  end.

(** The world right after the first render. *)
Definition boot (ctx : Context) : World :=
  {| state := mount ctx; inflight := []; timers := []; calls := [] |}.

(** The deposit calls and the success notifications of a history. *)
Fixpoint deposits (cs : list call) : list (number * string) :=
  match cs with
  | [] => []
  | Deposited n m :: cs' => (n, m) :: deposits cs'
  | _ :: cs' => deposits cs'
  end.

Fixpoint notifications (cs : list call) : list number :=
  match cs with
  | [] => []
  | Notified n :: cs' => n :: notifications cs'
  | _ :: cs' => notifications cs'
  end.

Definition lastDeposit (cs : list call) : option (number * string) :=
  hd_error (rev (deposits cs)).

Definition lastNotification (cs : list call) : option number :=
  hd_error (rev (notifications cs)).

(** ** Phases *)

(** Form shown, nothing pending. *)
Definition idle (w : World) : Prop :=
  isProcessing (state w) = false
  /\ success (state w) = false
  /\ inflight w = []
  /\ timers w = [].

(** Form shown with a busy button and no error; one deposit call
    pending, the last one made, with the amount still in the input. *)
Definition busy (ctx : Context) (props : DepositBoxProps) (w : World)
    : Prop :=
  isProcessing (state w) = true
  /\ success (state w) = false
  /\ error (state w) = None
  /\ timers w = []
  /\ gt (parseFloat (amount (state w))) zero = true
  /\ exists m,
       inflight w = [(parseFloat (amount (state w)), m,
                      afterAwait ctx props (parseFloat (amount (state w))))]
       /\ lastDeposit (calls w) = Some (parseFloat (amount (state w)), m).

(** Confirmation shown for the amount of the last deposit call, which
    was also the last amount notified when there is a success callback;
    no error; the reset timer pending. *)
Definition done (props : DepositBoxProps) (w : World) : Prop :=
  isProcessing (state w) = false
  /\ success (state w) = true
  /\ error (state w) = None
  /\ inflight w = []
  /\ timers w = [(ResetForm, 2000%Z)]
  /\ (exists m,
        lastDeposit (calls w) = Some (parseFloat (amount (state w)), m))
  /\ (if onSuccess props
      then lastNotification (calls w) = Some (parseFloat (amount (state w)))
      else True).

(** ** Bookkeeping *)

(** What holds of every history, whatever the phase: the state is a
    reachable one; each pending call was made by a submit, with the
    resumption of that submit; each deposit call had an amount greater
    than zero and the id of a listed method (the empty id when none is
    listed); each success notification carries a deposited amount, and
    notifications together with pending calls do not outnumber the
    deposit calls. *)
Definition accounted (ctx : Context) (props : DepositBoxProps) (w : World)
    : Prop :=
  reachable ctx props (state w)
  /\ (forall n m k, In (n, m, k) (inflight w) ->
        k = afterAwait ctx props n
        /\ In (n, m) (deposits (calls w))
        /\ exists st0 pre,
             reachable ctx props st0
             /\ handleSubmit ctx props st0 = Awaiting pre n m k)
  /\ (forall n m, In (n, m) (deposits (calls w)) ->
        gt n zero = true
        /\ (paymentMethods ctx = [] /\ m = ""
            \/ m <> "" /\ exists pm, In pm (paymentMethods ctx) /\ id pm = m))
  /\ (forall n, In n (notifications (calls w)) ->
        exists m, In (n, m) (deposits (calls w)))
  /\ List.length (notifications (calls w)) + List.length (inflight w)
     <= List.length (deposits (calls w)).

End Lifecycle.

(* ================================================================== *)
(** * Facts about the built-ins *)
(* ================================================================== *)

Module JSFacts.
Import JS Contract.

Lemma split_not_nil sep s : split sep s <> [].
Proof.
  destruct s as [|c s]; simpl; [discriminate|].
  destruct (Ascii.eqb c sep); [discriminate|].
  destruct (split sep s); discriminate.
Qed.

(** One more piece than there are separators. *)
Lemma split_length s :
  List.length (split "." s) = S (countPoints s).
Proof.
  induction s as [|c s IH]; simpl; [reflexivity|].
  unfold isPoint. destruct (Ascii.eqb c "."); simpl.
  - now rewrite IH.
  - destruct (split "." s) eqn:E; simpl in *; [discriminate|assumption].
Qed.

Lemma split_no_point s :
  countPoints s = 0 -> split "." s = [s].
Proof.
  induction s as [|c s IH]; simpl; [reflexivity|].
  unfold isPoint. destruct (Ascii.eqb c "."); [discriminate|].
  intros H. now rewrite (IH H).
Qed.

(** With at most one point, the second piece is what follows the point. *)
Lemma split_second s :
  countPoints s <= 1 -> nth_error (split "." s) 1 = afterPoint s.
Proof.
  induction s as [|c s IH]; simpl; [reflexivity|].
  unfold isPoint. destruct (Ascii.eqb c "."); intros H.
  - rewrite split_no_point by lia. reflexivity.
  - specialize (IH H).
    destruct (split "." s) as [|h tl] eqn:E.
    + now apply split_not_nil in E.
    + exact IH.
Qed.

Lemma filter_app p a b :
  filter p (a ++ b)%string = (filter p a ++ filter p b)%string.
Proof.
  induction a as [|c a IH]; simpl; [reflexivity|].
  destruct (p c); simpl; now rewrite IH.
Qed.

Lemma all_filter p s : all p (filter p s) = true.
Proof.
  induction s as [|c s IH]; simpl; [reflexivity|].
  destruct (p c) eqn:E; simpl; [rewrite E|]; assumption.
Qed.

Lemma all_afterPoint p s f :
  all p s = true -> afterPoint s = Some f -> all p f = true.
Proof.
  induction s as [|c s IH]; simpl; [discriminate|].
  intros H%andb_prop. destruct H as [_ H].
  destruct (isPoint c); [intros [= <-]; assumption | now apply IH].
Qed.

Lemma countPoints_afterPoint s f :
  afterPoint s = Some f -> countPoints s = S (countPoints f).
Proof.
  induction s as [|c s IH]; simpl; [discriminate|].
  destruct (isPoint c); [intros [= <-]; reflexivity | assumption].
Qed.

(** A text of digits and points without a point is all digits. *)
Lemma filter_digits_id s :
  all (fun c => isDigit c || isPoint c) s = true ->
  countPoints s = 0 ->
  filter isDigit s = s.
Proof.
  induction s as [|c s IH]; simpl; [reflexivity|].
  intros H%andb_prop. destruct H as [Hc Hs].
  destruct (isPoint c); [discriminate|].
  rewrite orb_false_r in Hc. rewrite Hc. intros H0. now rewrite IH.
Qed.

Lemma truthy_length s n :
  (truthy s && (S n <? String.length s)%nat) = (S n <? String.length s)%nat.
Proof. destruct s; reflexivity. Qed.

(** Comparison with zero: [n > 0] fails exactly on NaN and on [n <= 0]. *)
Lemma gt_zero_valid (n : number) :
  gt n zero = true <-> isNaN n || le n zero = false.
Proof.
  destruct n as [s|s| |s m e]; try destruct s; cbn; intuition congruence.
Qed.

Lemma gt_zero_invalid (n : number) :
  gt n zero = false <-> isNaN n = true \/ le n zero = true.
Proof.
  destruct n as [s|s| |s m e]; try destruct s; cbn; intuition congruence.
Qed.

End JSFacts.

(* ================================================================== *)
(** * The amount input *)
(* ================================================================== *)

Module AmountInput.
Import JS DepositBox Contract JSFacts.

(** The handler either does nothing or sets the amount to the stripped
    input. *)
Lemma handleAmountChange_shape raw :
  handleAmountChange raw = []
  \/ handleAmountChange raw = [SetAmount (replace_non_numeric raw)].
Proof.
  unfold handleAmountChange.
  destruct (2 <? _)%nat; [now left|].
  destruct (nth_error _ 1) as [p|]; [|now right].
  destruct (truthy p && _); [now left | now right].
Qed.

(** The guard of the handler is the guard of the specification. *)
Lemma handleAmountChange_guard raw :
  handleAmountChange raw =
  let stripped := replace_non_numeric raw in
  if (1 <? countPoints stripped)%nat || (2 <? digitsAfterPoint stripped)%nat
  then []
  else [SetAmount stripped].
Proof.
  unfold handleAmountChange. cbv zeta.
  set (v := replace_non_numeric raw).
  assert (Hall : all (fun c => isDigit c || isPoint c) v = true)
    by apply all_filter.
  rewrite split_length.
  change (2 <? S (countPoints v))%nat with (1 <? countPoints v)%nat.
  destruct (1 <? countPoints v)%nat eqn:E; [reflexivity|].
  apply Nat.ltb_ge in E. rewrite (split_second v E). simpl.
  unfold digitsAfterPoint.
  destruct (afterPoint v) as [f|] eqn:Ef; [|reflexivity].
  rewrite truthy_length.
  rewrite filter_digits_id; [reflexivity| |].
  - exact (all_afterPoint _ _ _ Hall Ef).
  - apply countPoints_afterPoint in Ef. lia.
Qed.

(** C1.  [updateAmount]: the raw input is first stripped of every
    character other than digits and the decimal point; when the stripped
    text has more than one decimal point, or more than two digits after
    the decimal point, the amount text stays as it was, otherwise it
    becomes the stripped text.  No other field of the state changes.
    With current text "12.34" the input "12.345" leaves "12.34", and
    with current text "1.2" the input "1.2.3" leaves "1.2". *)
Theorem updateAmount_strips_then_guards :
  (forall raw,
      all (fun c => isDigit c || isPoint c) (replace_non_numeric raw) = true)
  /\ (forall a c b,
      replace_non_numeric (a ++ String c b)%string
      = (replace_non_numeric a
         ++ (if isDigit c || isPoint c
             then String c (replace_non_numeric b)
             else replace_non_numeric b))%string)
  /\ (forall st raw,
      amount (run (handleAmountChange raw) st) = updateAmount (amount st) raw
      /\ selectedMethodId (run (handleAmountChange raw) st) = selectedMethodId st
      /\ isProcessing (run (handleAmountChange raw) st) = isProcessing st
      /\ error (run (handleAmountChange raw) st) = error st
      /\ success (run (handleAmountChange raw) st) = success st)
  /\ (forall st,
      amount (run (handleAmountChange "12.345") (apply (SetAmount "12.34") st))
      = "12.34")
  /\ (forall st,
      amount (run (handleAmountChange "1.2.3") (apply (SetAmount "1.2") st))
      = "1.2").
Proof.
  split; [intros raw; apply all_filter|].
  split; [intros a c b; unfold replace_non_numeric; rewrite filter_app;
          simpl; destruct (isDigit c || isPoint c); reflexivity|].
  split; [|split; intros st; reflexivity].
  intros st raw. rewrite handleAmountChange_guard. unfold updateAmount.
  cbv zeta. destruct (_ || _); simpl; repeat split; reflexivity.
Qed.

(** C9.  [updateAmount] is idempotent under repeated identical input:
    handling the same raw input twice in succession leaves the same state,
    hence the same amount text, as handling it once. *)
Theorem updateAmount_idempotent st raw :
  run (handleAmountChange raw) (run (handleAmountChange raw) st)
  = run (handleAmountChange raw) st
  /\ updateAmount (updateAmount (amount st) raw) raw
     = updateAmount (amount st) raw.
Proof.
  split.
  - destruct (handleAmountChange_shape raw) as [-> | ->]; reflexivity.
  - unfold updateAmount. cbv zeta. destruct (_ || _); reflexivity.
Qed.

End AmountInput.

(* ================================================================== *)
(** * The submit handler *)
(* ================================================================== *)

Module SubmitFacts.
Import JS DepositBox Contract JSFacts.

Lemma truthy_false s : truthy s = false <-> s = "".
Proof. destruct s; simpl; split; intros H; congruence. Qed.

Lemma length_pos_false {A} (l : list A) :
  (0 <? List.length l)%nat = false <-> l = [].
Proof. destruct l; cbn; split; intros H; congruence. Qed.

(** The three ways through [handleSubmit]. *)

Lemma handleSubmit_invalid ctx props st :
  gt (parseFloat (amount st)) zero = false ->
  handleSubmit ctx props st =
  Finished [PreventDefault; SetError None;
            SetError (Some (t ctx "invalid_amount")); SetIsProcessing false].
Proof.
  intros H. unfold handleSubmit. cbv zeta.
  destruct (isNaN _ || le _ zero) eqn:E; [reflexivity|].
  apply gt_zero_valid in E. congruence.
Qed.

Lemma handleSubmit_no_method ctx props st :
  gt (parseFloat (amount st)) zero = true ->
  selectedMethodId st = "" ->
  paymentMethods ctx <> [] ->
  handleSubmit ctx props st =
  Finished [PreventDefault; SetError None;
            SetError (Some (t ctx "select_payment_method"));
            SetIsProcessing false].
Proof.
  intros H Hsel Hm. unfold handleSubmit. cbv zeta.
  apply gt_zero_valid in H. rewrite H, Hsel. simpl.
  destruct (paymentMethods ctx); [contradiction | reflexivity].
Qed.

Lemma handleSubmit_dispatch ctx props st :
  gt (parseFloat (amount st)) zero = true ->
  selectedMethodId st <> "" \/ paymentMethods ctx = [] ->
  handleSubmit ctx props st =
  Awaiting [PreventDefault; SetError None; SetIsProcessing true]
           (parseFloat (amount st)) (selectedMethodId st)
           (afterAwait ctx props (parseFloat (amount st))).
Proof.
  intros H Hm. unfold handleSubmit. cbv zeta.
  apply gt_zero_valid in H. rewrite H.
  destruct Hm as [Hsel | Hnil].
  - destruct (truthy (selectedMethodId st)) eqn:E; [reflexivity|].
    apply truthy_false in E. contradiction.
  - rewrite Hnil. simpl. rewrite andb_false_r. reflexivity.
Qed.

(** A submit that awaits is one whose validations passed. *)
Lemma handleSubmit_awaiting ctx props st pre n mid resume :
  handleSubmit ctx props st = Awaiting pre n mid resume ->
  pre = [PreventDefault; SetError None; SetIsProcessing true]
  /\ n = parseFloat (amount st)
  /\ mid = selectedMethodId st
  /\ resume = afterAwait ctx props (parseFloat (amount st))
  /\ gt (parseFloat (amount st)) zero = true
  /\ (selectedMethodId st <> "" \/ paymentMethods ctx = []).
Proof.
  unfold handleSubmit. cbv zeta.
  destruct (isNaN _ || le _ zero) eqn:E; [discriminate|].
  destruct (negb _ && _) eqn:E2; [discriminate|].
  intros [= <- <- <- <-]. apply gt_zero_valid in E.
  repeat split; try assumption.
  apply andb_false_iff in E2 as [E2 | E2].
  - left. intros Hs. rewrite Hs in E2. discriminate.
  - right. now apply length_pos_false.
Qed.

Lemma run_keepsSelection effs :
  keepsSelection effs = true ->
  forall st, selectedMethodId (run effs st) = selectedMethodId st.
Proof.
  induction effs as [|e effs IH]; simpl; [reflexivity|].
  intros H%andb_prop st. destruct H as [He Hr].
  rewrite (IH Hr). destruct e; try reflexivity; discriminate.
Qed.

Lemma handleAmountChange_keepsSelection raw :
  keepsSelection (handleAmountChange raw) = true.
Proof.
  destruct (AmountInput.handleAmountChange_shape raw) as [-> | ->];
    reflexivity.
Qed.

Lemma before_handleSubmit_keepsSelection ctx props st :
  keepsSelection (before (handleSubmit ctx props st)) = true.
Proof.
  unfold handleSubmit. cbv zeta.
  destruct (isNaN _ || le _ zero); [reflexivity|].
  destruct (negb _ && _); reflexivity.
Qed.

Lemma afterAwait_keepsSelection ctx props n outcome :
  keepsSelection (afterAwait ctx props n outcome) = true.
Proof.
  destruct outcome as [|[|message]]; simpl;
    [destruct (onSuccess props)| |]; reflexivity.
Qed.

Lemma runTimer_keepsSelection props cb :
  keepsSelection (runTimer props cb) = true.
Proof. destruct cb; simpl; destruct (onClose props); reflexivity. Qed.

(** The selected method id is empty or the id of a listed method, in
    every reachable state. *)
Lemma selection_is_listed ctx props st :
  reachable ctx props st ->
  selectedMethodId st = ""
  \/ exists m, In m (paymentMethods ctx) /\ id m = selectedMethodId st.
Proof.
  induction 1 as [ | st raw _ IH | st m _ _ Hin | st _ IH
                 | st0 st pre n mid resume outcome _ _ Hsub _ IH
                 | st cb _ IH ].
  - unfold mount, selectDefault, defaultMethod.
    destruct (find isDefault (paymentMethods ctx)) as [m|] eqn:E;
      [|now left].
    right. exists m. apply find_some in E. split; [tauto | reflexivity].
  - now rewrite run_keepsSelection by apply handleAmountChange_keepsSelection.
  - right. exists m. split; [assumption | reflexivity].
  - now rewrite run_keepsSelection
      by apply before_handleSubmit_keepsSelection.
  - apply handleSubmit_awaiting in Hsub as (_ & _ & _ & -> & _).
    now rewrite run_keepsSelection by apply afterAwait_keepsSelection.
  - now rewrite run_keepsSelection by apply runTimer_keepsSelection.
Qed.

(** Where the code's [disabled] and the specification's agree. *)
Lemma submitDisabled_sound st :
  submitDisabled st = true -> submitControlDisabled st = true.
Proof.
  unfold submitDisabled, submitControlDisabled.
  generalize (parseFloat (amount st)) as n. intros n.
  destruct (isProcessing st); [reflexivity|].
  destruct (amount st) as [|c s]; [reflexivity|].
  cbn [truthy negb orb String.eqb]. intros H.
  destruct (gt n zero) eqn:G; [|reflexivity].
  apply gt_zero_valid in G. apply orb_false_elim in G as [_ G]. congruence.
Qed.

Lemma submitDisabled_agrees st :
  isNaN (parseFloat (amount st)) = false ->
  submitDisabled st = submitControlDisabled st.
Proof.
  unfold submitDisabled, submitControlDisabled.
  generalize (parseFloat (amount st)) as n. intros n Hn.
  destruct (isProcessing st); [reflexivity|].
  destruct (amount st) as [|c s]; [reflexivity|].
  cbn [truthy negb orb String.eqb].
  destruct (gt n zero) eqn:G.
  - apply gt_zero_valid in G. apply orb_false_elim in G as [_ G]. now rewrite G.
  - apply gt_zero_invalid in G as [G | G]; [congruence | now rewrite G].
Qed.

End SubmitFacts.

(* ================================================================== *)
(** * Submit: validation *)
(* ================================================================== *)

Module Validation.
Import JS DepositBox Contract JSFacts SubmitFacts Sample.

(** C2, as the code has it.  For every amount text whose parse is NaN or
    not greater than zero (the texts "" and "0" among them), submit sets
    the error message to the invalid-amount localization and returns:
    the deposit operation is not invoked, [setIsProcessing(true)] is
    never called, and the processing flag is false afterwards. *)
Theorem submit_rejects_invalid_amount ctx props st :
  isNaN (parseFloat (amount st)) = true
  \/ le (parseFloat (amount st)) zero = true ->
  let p := handleSubmit ctx props st in
  (exists effs, p = Finished effs)
  /\ error (run (before p) st) = Some (t ctx "invalid_amount")
  /\ depositCalls p = []
  /\ raisesProcessing (before p) = false
  /\ isProcessing (run (before p) st) = false.
Proof.
  intros H%gt_zero_invalid. cbv zeta.
  rewrite (handleSubmit_invalid ctx props st H). simpl.
  repeat split. eexists. reflexivity.
Qed.

Lemma submit_rejects_invalid_amount_witness :
  (parseFloat "" = NaN /\ parseFloat "0" = zero)
  /\ (let p := handleSubmit oneCard bothCallbacks (typed oneCard "") in
      (exists effs, p = Finished effs)
      /\ error (run (before p) (typed oneCard "")) = Some "invalid_amount"
      /\ depositCalls p = []
      /\ raisesProcessing (before p) = false
      /\ isProcessing (run (before p) (typed oneCard "")) = false)
  /\ (let p := handleSubmit oneCard bothCallbacks (typed oneCard "0") in
      (exists effs, p = Finished effs)
      /\ error (run (before p) (typed oneCard "0")) = Some "invalid_amount"
      /\ depositCalls p = []
      /\ raisesProcessing (before p) = false
      /\ isProcessing (run (before p) (typed oneCard "0")) = false).
Proof.
  split; [split; reflexivity|]. split.
  - apply (submit_rejects_invalid_amount oneCard bothCallbacks
             (typed oneCard "")).
    left. reflexivity.
  - apply (submit_rejects_invalid_amount oneCard bothCallbacks
             (typed oneCard "0")).
    right. reflexivity.
Defined.

(** The text of a one and 309 zeros passes the amount input unchanged
    and parses to positive infinity. *)
Lemma tenTo309_overflows :
  amount (typed noMethods tenTo309) = tenTo309
  /\ parseFloat tenTo309 = Infinity.
Proof. split; vm_compute; reflexivity. Qed.

(** C2 as stated fails: a parse that is not a positive finite number
    need not be rejected.  The amount text of a one and 309 zeros parses
    to positive infinity, which is neither NaN nor [<= 0]; submit goes on
    and calls the deposit operation with it. *)
Lemma infinite_amount_is_submitted :
  ~ (forall ctx props st,
        positiveFinite (parseFloat (amount st)) = false ->
        let p := handleSubmit ctx props st in
        error (run (before p) st) = Some (t ctx "invalid_amount")
        /\ depositCalls p = []
        /\ raisesProcessing (before p) = false).
Proof.
  intros claim.
  specialize (claim noMethods noCallbacks (typed noMethods tenTo309)).
  assert (H : positiveFinite (parseFloat (amount (typed noMethods tenTo309)))
              = false) by (vm_compute; reflexivity).
  specialize (claim H). vm_compute in claim.
  destruct claim as (_ & calls & _). discriminate calls.
Qed.

(** C3, as the code has it.  In every state in which at least one
    payment method is available and none is selected, submit does not
    invoke the deposit operation; its error is the select-payment-method
    localization when the amount parses to a number greater than zero,
    and the invalid-amount localization otherwise, the amount being
    validated first. *)
Theorem submit_requires_method ctx props st :
  paymentMethods ctx <> [] ->
  selectedMethodId st = "" ->
  let p := handleSubmit ctx props st in
  depositCalls p = []
  /\ (exists effs, p = Finished effs)
  /\ error (run (before p) st) =
     Some (if gt (parseFloat (amount st)) zero
           then t ctx "select_payment_method"
           else t ctx "invalid_amount").
Proof.
  intros Hm Hsel. cbv zeta.
  destruct (gt (parseFloat (amount st)) zero) eqn:G.
  - rewrite (handleSubmit_no_method ctx props st G Hsel Hm). simpl.
    repeat split. eexists. reflexivity.
  - rewrite (handleSubmit_invalid ctx props st G). simpl.
    repeat split. eexists. reflexivity.
Qed.

Lemma submit_requires_method_witness :
  let st := typed onePaypal "25.5" in
  let p := handleSubmit onePaypal bothCallbacks st in
  selectedMethodId st = ""
  /\ depositCalls p = []
  /\ (exists effs, p = Finished effs)
  /\ error (run (before p) st) = Some "select_payment_method".
Proof.
  cbv zeta. split; [reflexivity|].
  apply (submit_requires_method onePaypal bothCallbacks
           (typed onePaypal "25.5")).
  - discriminate.
  - reflexivity.
Defined.

(** C3 as stated fails: with a method available, none selected and an
    empty amount text, the error is the invalid-amount one. *)
Lemma empty_amount_masks_method_error :
  ~ (forall ctx props st,
        paymentMethods ctx <> [] ->
        selectedMethodId st = "" ->
        let p := handleSubmit ctx props st in
        error (run (before p) st) = Some (t ctx "select_payment_method")
        /\ depositCalls p = []).
Proof.
  intros claim.
  specialize (claim onePaypal noCallbacks (mount onePaypal)).
  assert (Hm : paymentMethods onePaypal <> []) by discriminate.
  specialize (claim Hm eq_refl). vm_compute in claim.
  destruct claim as (err & _). discriminate err.
Qed.

(** C10, as the code has it.  In every state in which the list of
    payment methods is empty and the amount passes validation, submit
    sets no error (so no method-required error) and invokes the deposit
    operation once, with the parsed amount and the selected method id,
    passed on as it is.  That id is the empty string when no method is
    selected, which is so in every state reached from mount while the
    list is empty. *)
Theorem submit_without_methods ctx props st :
  paymentMethods ctx = [] ->
  gt (parseFloat (amount st)) zero = true ->
  let p := handleSubmit ctx props st in
  depositCalls p = [(parseFloat (amount st), selectedMethodId st)]
  /\ error (run (before p) st) = None
  /\ (reachable ctx props st ->
      selectedMethodId st = ""
      /\ depositCalls p = [(parseFloat (amount st), "")]).
Proof.
  intros Hnil G. cbv zeta.
  rewrite (handleSubmit_dispatch ctx props st G (or_intror Hnil)). simpl.
  split; [reflexivity|]. split; [reflexivity|].
  intros Hreach.
  destruct (selection_is_listed ctx props st Hreach) as [-> | (m & Hin & _)].
  - split; reflexivity.
  - rewrite Hnil in Hin. destruct Hin.
Qed.

Lemma submit_without_methods_witness :
  let st := typed noMethods "25.5" in
  let p := handleSubmit noMethods noCallbacks st in
  reachable noMethods noCallbacks st
  /\ depositCalls p = [(parseFloat "25.5", "")]
  /\ error (run (before p) st) = None
  /\ (reachable noMethods noCallbacks st ->
      selectedMethodId st = ""
      /\ depositCalls p = [(parseFloat "25.5", "")]).
Proof.
  cbv zeta.
  split; [apply reach_change, reach_mount|].
  exact (submit_without_methods noMethods noCallbacks
           (typed noMethods "25.5") eq_refl eq_refl).
Defined.

(** C10 as stated fails: with no method listed, amount text "5" and a
    selected method id "m1" left in the state, submit passes that id on
    and calls the deposit operation with "m1", not with the empty
    string. *)
Lemma stale_selection_is_passed_on :
  ~ (forall ctx props st,
        paymentMethods ctx = [] ->
        gt (parseFloat (amount st)) zero = true ->
        let p := handleSubmit ctx props st in
        depositCalls p = [(parseFloat (amount st), "")]
        /\ error (run (before p) st) = None).
Proof.
  intros claim.
  specialize (claim noMethods noCallbacks staleSelection eq_refl eq_refl).
  vm_compute in claim. destruct claim as (calls & _). discriminate calls.
Qed.

End Validation.

(* ================================================================== *)
(** * Submit: the deposit settles *)
(* ================================================================== *)

Module Settlement.
Import JS DepositBox Contract JSFacts SubmitFacts Sample.

(** C4.  When the validations pass, submit calls the deposit operation
    with the parsed amount and the selected method; when that call
    resolves, the success flag is set, the success callback (when given)
    is invoked exactly once, with the parsed amount, and one timer of
    2000 ms is scheduled; until the timer fires the close callback is not
    invoked; when it fires the amount text becomes empty, the success
    flag is cleared and the close callback (when given) is invoked
    exactly once. *)
Theorem deposit_success_sequence ctx props st :
  gt (parseFloat (amount st)) zero = true ->
  selectedMethodId st <> "" \/ paymentMethods ctx = [] ->
  exists pre resume,
    handleSubmit ctx props st
    = Awaiting pre (parseFloat (amount st)) (selectedMethodId st) resume
    /\ let post := resume Resolved in
       let fired := runTimer props ResetForm in
       (forall st', success (run post st') = true)
       /\ onSuccessCalls (pre ++ post ++ fired)
          = (if onSuccess props then [parseFloat (amount st)] else [])
       /\ timeouts (pre ++ post ++ fired) = [(ResetForm, 2000%Z)]
       /\ onCloseCalls (pre ++ post) = 0
       /\ (forall st', amount (run fired st') = ""
                       /\ success (run fired st') = false)
       /\ onCloseCalls (pre ++ post ++ fired)
          = (if onClose props then 1 else 0).
Proof.
  intros G Hm. eexists. eexists.
  split; [apply (handleSubmit_dispatch ctx props st G Hm)|].
  cbv zeta. unfold afterAwait, runTimer, finally_clause.
  destruct (onSuccess props), (onClose props); simpl;
    repeat split; reflexivity.
Qed.

Lemma deposit_success_sequence_witness :
  let st := typed oneCard "25.5" in
  selectedMethodId st = "m1"
  /\ exists pre resume,
    handleSubmit oneCard bothCallbacks st
    = Awaiting pre (parseFloat "25.5") "m1" resume
    /\ let post := resume Resolved in
       let fired := runTimer bothCallbacks ResetForm in
       (forall st', success (run post st') = true)
       /\ onSuccessCalls (pre ++ post ++ fired) = [parseFloat "25.5"]
       /\ timeouts (pre ++ post ++ fired) = [(ResetForm, 2000%Z)]
       /\ onCloseCalls (pre ++ post) = 0
       /\ (forall st', amount (run fired st') = ""
                       /\ success (run fired st') = false)
       /\ onCloseCalls (pre ++ post ++ fired) = 1.
Proof.
  cbv zeta. split; [reflexivity|].
  apply (deposit_success_sequence oneCard bothCallbacks
           (typed oneCard "25.5")).
  - reflexivity.
  - left. discriminate.
Defined.

(** Whatever value the deposit operation rejects with: the success
    callback is not invoked, [setSuccess(true)] is never called and the
    success flag is left as it was, no timer is armed, and the
    processing flag is false afterwards. *)
Lemma deposit_failure_frame ctx props st pre n mid resume err :
  handleSubmit ctx props st = Awaiting pre n mid resume ->
  let post := resume (Rejected err) in
  onSuccessCalls (pre ++ post) = []
  /\ raisesSuccess (pre ++ post) = false
  /\ (forall st', success (run post st') = success st')
  /\ timeouts (pre ++ post) = []
  /\ (forall st', isProcessing (run post st') = false).
Proof.
  intros (-> & _ & _ & -> & _)%handleSubmit_awaiting. cbv zeta.
  destruct err as [|message]; simpl; repeat split.
Qed.

(** A rejection with a value other than [undefined] and [null]: the
    error message becomes the value's message when there is one and the
    generic fallback localization otherwise, and the handler returns. *)
Lemma deposit_failure_with_value ctx props st pre n mid resume message :
  handleSubmit ctx props st = Awaiting pre n mid resume ->
  let post := resume (Rejected (Thrown message)) in
  (forall st', error (run post st')
               = Some (failureMessage (Thrown message)
                         (t ctx "deposit_error")))
  /\ (forall e, ~ In (Reject e) post).
Proof.
  intros (-> & _ & _ & -> & _)%handleSubmit_awaiting. cbv zeta.
  unfold afterAwait, catch_clause, finally_clause, failureMessage.
  split.
  - intros st'. destruct message as [[|c m]|]; reflexivity.
  - intros e. simpl. intros [H | [H | []]]; discriminate H.
Qed.

(** C5 at a rejection with [undefined]: amount "25.5" typed, the default
    card selected, submit, and the deposit operation rejects with
    [undefined].  The claim has the error message become the fallback
    localization; in the code the catch clause throws on reading
    [error.message], [setError] is never reached, the error stays
    cleared, and the handler ends rejected with a TypeError after the
    finally clause has cleared the processing flag. *)
Theorem rejection_with_undefined_sets_no_error :
  let st := typed oneCard "25.5" in
  let p := handleSubmit oneCard bothCallbacks st in
  let post := afterAwait oneCard bothCallbacks (parseFloat "25.5")
                (Rejected Nullish) in
  p = Awaiting (before p) (parseFloat "25.5") "m1"
        (afterAwait oneCard bothCallbacks (parseFloat "25.5"))
  /\ failureMessage Nullish (t oneCard "deposit_error") = "deposit_error"
  /\ post = [SetIsProcessing false; Reject TypeError]
  /\ error (run (before p ++ post) st) = None
  /\ (forall st', error (run post st') = error st')
  /\ isProcessing (run (before p ++ post) st) = false
  /\ onSuccessCalls (before p ++ post) = [].
Proof. cbv zeta. repeat split. Qed.

(** C6.  Whichever way a submit resolves, the processing flag is false
    right after: after a validation abort, and after the deposit call
    settles, resolved or rejected, in whatever state the component then
    is.  So the processing flag and the success flag are not both true
    once a submit has resolved. *)
Theorem processing_cleared_when_resolved ctx props st :
  match handleSubmit ctx props st with
  | Finished effs =>
      isProcessing (run effs st) = false
      /\ isProcessing (run effs st) && success (run effs st) = false
  | Awaiting _ _ _ resume =>
      forall outcome st',
        isProcessing (run (resume outcome) st') = false
        /\ isProcessing (run (resume outcome) st')
           && success (run (resume outcome) st') = false
  end.
Proof.
  destruct (handleSubmit ctx props st) as [effs | pre n mid resume] eqn:E.
  - assert (H : isProcessing (run effs st) = false).
    { revert E. unfold handleSubmit. cbv zeta.
      destruct (isNaN _ || le _ zero); [intros [= <-]; reflexivity|].
      destruct (negb _ && _); [intros [= <-]; reflexivity | discriminate]. }
    now rewrite H.
  - apply handleSubmit_awaiting in E as (_ & _ & _ & -> & _).
    intros outcome st'.
    assert (H : isProcessing
                  (run (afterAwait ctx props (parseFloat (amount st)) outcome)
                       st') = false).
    { destruct outcome as [|[|message]]; simpl;
        [destruct (onSuccess props) | | ]; reflexivity. }
    now rewrite H.
Qed.

End Settlement.

(* ================================================================== *)
(** * The submit control *)
(* ================================================================== *)

Module SubmitControl.
Import JS DepositBox Contract JSFacts SubmitFacts Sample.

(** C7, as the code has it.  In every state in which the processing flag
    is true the submit control is disabled, so a submit of the rendered
    form is a no-op: it produces no effect, leaves the state as it is and
    does not invoke the deposit operation.  The guard is the disabled
    control; [handleSubmit] itself does not read the flag. *)
Theorem submit_control_guards_processing ctx props st :
  isProcessing st = true ->
  submitDisabled st = true
  /\ handleEvent ctx props st Submit = Finished []
  /\ run (before (handleEvent ctx props st Submit)) st = st
  /\ depositCalls (handleEvent ctx props st Submit) = []
  /\ handleSubmit ctx props st
     = handleSubmit ctx props (apply (SetIsProcessing false) st).
Proof.
  intros H.
  assert (D : submitDisabled st = true)
    by (unfold submitDisabled; now rewrite H).
  assert (E : handleEvent ctx props st Submit = Finished []).
  { unfold handleEvent, render. destruct (success st); [reflexivity|].
    simpl. now rewrite D. }
  rewrite E. repeat split; assumption.
Qed.

Lemma submit_control_guards_processing_witness :
  let st := withProcessing (typed noMethods "5") in
  isProcessing st = true
  /\ submitDisabled st = true
  /\ handleEvent noMethods noCallbacks st Submit = Finished []
  /\ run (before (handleEvent noMethods noCallbacks st Submit)) st = st
  /\ depositCalls (handleEvent noMethods noCallbacks st Submit) = []
  /\ handleSubmit noMethods noCallbacks st
     = handleSubmit noMethods noCallbacks (apply (SetIsProcessing false) st).
Proof.
  cbv zeta. split; [reflexivity|].
  apply (submit_control_guards_processing noMethods noCallbacks
           (withProcessing (typed noMethods "5"))).
  reflexivity.
Defined.

(** C7 as stated fails for the handler: called in a state whose
    processing flag is true, with a valid amount, [handleSubmit] invokes
    the deposit operation again. *)
Lemma handleSubmit_has_no_processing_guard :
  ~ (forall ctx props st,
        isProcessing st = true ->
        let p := handleSubmit ctx props st in
        run (before p) st = st /\ depositCalls p = []).
Proof.
  intros claim.
  specialize (claim noMethods noCallbacks
                (withProcessing (typed noMethods "5")) eq_refl).
  vm_compute in claim. destruct claim as (_ & calls). discriminate calls.
Qed.

(** C8 at the amount text ".": the text is reachable by typing a point,
    its parse is NaN and so not greater than zero, and the specification
    has the control disabled; the code's [disabled] is false, because
    [NaN <= 0] is false.  A submit then runs [handleSubmit], whose own
    check does test for NaN and reports an invalid amount. *)
Theorem submit_enabled_on_lone_point :
  let st := typed noMethods "." in
  amount st = "."
  /\ isProcessing st = false
  /\ isNaN (parseFloat (amount st)) = true
  /\ gt (parseFloat (amount st)) zero = false
  /\ submitControlDisabled st = true
  /\ submitDisabled st = false
  /\ handleEvent noMethods noCallbacks st Submit
     = Finished [PreventDefault; SetError None;
                 SetError (Some "invalid_amount"); SetIsProcessing false].
Proof. cbv zeta. repeat split. Qed.

End SubmitControl.

(* ================================================================== *)
(** * The shape of the amount text *)
(* ================================================================== *)

Module AmountFormat.
Import JS DepositBox Contract JSFacts SubmitFacts Sample Lifecycle.

Lemma filter_all_id p s : all p s = true -> filter p s = s.
Proof.
  induction s as [|c s IH]; simpl; [reflexivity|].
  intros H%andb_prop. destruct H as [-> Hs]. now rewrite IH.
Qed.

Lemma countPoints_app a b :
  countPoints (a ++ b)%string = countPoints a + countPoints b.
Proof.
  induction a as [|c a IH]; simpl; [reflexivity|].
  destruct (isPoint c); simpl; now rewrite IH.
Qed.

Lemma filter_length_app p a b :
  String.length (filter p a) <= String.length (filter p (a ++ b)%string).
Proof.
  induction a as [|c a IH]; simpl; [lia|].
  destruct (p c); simpl; lia.
Qed.

Lemma digitsAfterPoint_app a b :
  digitsAfterPoint a <= digitsAfterPoint (a ++ b)%string.
Proof.
  unfold digitsAfterPoint.
  induction a as [|c a IH]; simpl; [lia|].
  destruct (isPoint c); [apply filter_length_app | exact IH].
Qed.

(** The handler lets the stripped input through exactly when it is an
    amount text. *)
Lemma handleAmountChange_amountText raw :
  handleAmountChange raw =
  if amountText (replace_non_numeric raw)
  then [SetAmount (replace_non_numeric raw)]
  else [].
Proof.
  rewrite AmountInput.handleAmountChange_guard. cbv zeta.
  set (v := replace_non_numeric raw).
  unfold amountText.
  replace (all (fun c => isDigit c || isPoint c) v) with true
    by (symmetry; apply all_filter).
  destruct (countPoints v) as [|[|n]];
    destruct (digitsAfterPoint v) as [|[|[|d]]]; reflexivity.
Qed.

Lemma before_handleSubmit_amount ctx props st st' :
  amount (run (before (handleSubmit ctx props st)) st') = amount st'.
Proof.
  unfold handleSubmit. cbv zeta.
  destruct (isNaN _ || le _ zero); [reflexivity|].
  destruct (negb _ && _); reflexivity.
Qed.

Lemma afterAwait_amount ctx props n outcome st' :
  amount (run (afterAwait ctx props n outcome) st') = amount st'.
Proof.
  destruct outcome as [|[|message]]; simpl;
    [destruct (onSuccess props)| |]; reflexivity.
Qed.

Lemma mount_amount ctx : amount (mount ctx) = "".
Proof.
  unfold mount, selectDefault. destruct (defaultMethod ctx); reflexivity.
Qed.

Lemma reachable_amountText ctx props st :
  reachable ctx props st -> amountText (amount st) = true.
Proof.
  induction 1 as [ | st raw _ IH | st m _ IH Hin | st _ IH
                 | st0 st pre n mid resume outcome _ _ Hsub _ IH
                 | st cb _ IH ].
  - now rewrite mount_amount.
  - rewrite handleAmountChange_amountText.
    destruct (amountText (replace_non_numeric raw)) eqn:E; assumption.
  - exact IH.
  - now rewrite before_handleSubmit_amount.
  - apply handleSubmit_awaiting in Hsub as (_ & _ & _ & -> & _).
    now rewrite afterAwait_amount.
  - destruct cb. simpl. destruct (onClose props); reflexivity.
Qed.

Lemma amountText_parts s :
  amountText s = true ->
  all (fun c => isDigit c || isPoint c) s = true
  /\ countPoints s <= 1
  /\ digitsAfterPoint s <= 2.
Proof.
  unfold amountText. intros W.
  apply andb_prop in W as [W D]. apply andb_prop in W as [A C].
  apply Nat.leb_le in C, D. auto.
Qed.

(** X1.  In every reachable state the amount text holds only digits and
    decimal points, at most one decimal point, and at most two digits
    after it. *)
Theorem amount_stays_wellformed ctx props st :
  reachable ctx props st ->
  all (fun c => isDigit c || isPoint c) (amount st) = true
  /\ countPoints (amount st) <= 1
  /\ digitsAfterPoint (amount st) <= 2.
Proof.
  intros R. apply amountText_parts, (reachable_amountText ctx props st R).
Qed.

Lemma amount_stays_wellformed_witness :
  let st := typed oneCard "a12.5b" in
  amount st = "12.5"
  /\ all (fun c => isDigit c || isPoint c) (amount st) = true
  /\ countPoints (amount st) <= 1
  /\ digitsAfterPoint (amount st) <= 2.
Proof.
  cbv zeta. split; [reflexivity|].
  apply (amount_stays_wellformed oneCard bothCallbacks
           (typed oneCard "a12.5b")).
  apply reach_change, reach_mount.
Defined.

(** X2.  The text the input shows is always accepted back: in every
    reachable state, handling the current amount text as input leaves the
    state exactly as it is. *)
Theorem shown_amount_is_accepted ctx props st :
  reachable ctx props st ->
  handleAmountChange (amount st) = [SetAmount (amount st)]
  /\ run (handleAmountChange (amount st)) st = st.
Proof.
  intros R. pose proof (reachable_amountText ctx props st R) as W.
  assert (E : replace_non_numeric (amount st) = amount st)
    by (apply filter_all_id, amountText_parts, W).
  rewrite handleAmountChange_amountText, E, W.
  split; [reflexivity | destruct st; reflexivity].
Qed.

Lemma shown_amount_is_accepted_witness :
  let st := typed oneCard "12.5" in
  handleAmountChange (amount st) = [SetAmount "12.5"]
  /\ run (handleAmountChange (amount st)) st = st.
Proof.
  cbv zeta.
  apply (shown_amount_is_accepted oneCard bothCallbacks (typed oneCard "12.5")).
  apply reach_change, reach_mount.
Defined.

(** X3.  Rejection is final for a text: once an input is rejected, no
    continuation of it is accepted; equivalently every text on the way to
    an accepted input, typed unit by unit, was accepted too. *)
Theorem rejected_input_stays_rejected a b :
  handleAmountChange a = [] ->
  handleAmountChange (a ++ b)%string = [].
Proof.
  rewrite !AmountInput.handleAmountChange_guard. cbv zeta.
  unfold replace_non_numeric. rewrite filter_app.
  set (p := fun c => isDigit c || isPoint c).
  destruct ((1 <? countPoints (filter p a))%nat
            || (2 <? digitsAfterPoint (filter p a))%nat) eqn:E;
    [intros _ | discriminate].
  assert (G : (1 <? countPoints (filter p a ++ filter p b)%string)%nat
              || (2 <? digitsAfterPoint (filter p a ++ filter p b)%string)%nat
              = true).
  { apply orb_true_iff. apply orb_true_iff in E as [E | E];
      apply Nat.ltb_lt in E; [left | right]; apply Nat.ltb_lt.
    - rewrite countPoints_app. lia.
    - pose proof (digitsAfterPoint_app (filter p a) (filter p b)). lia. }
  now rewrite G.
Qed.

Lemma rejected_input_stays_rejected_witness :
  handleAmountChange "12.345" = []
  /\ handleAmountChange "12.3456" = [].
Proof.
  split; [reflexivity|].
  apply (rejected_input_stays_rejected "12.345" "6"). reflexivity.
Defined.

End AmountFormat.

(* ================================================================== *)
(** * Rounding never loses a positive amount *)
(* ================================================================== *)

Module Rounding.
Import JS.

Local Open Scope Z_scope.

(** A positive number of [d] binary digits is at least [2^(d-1)] and
    below [2^d]. *)
Lemma digits2_pos_bounds (p : positive) :
  2 ^ (Zpos (digits2_pos p) - 1) <= Zpos p < 2 ^ Zpos (digits2_pos p).
Proof.
  induction p as [p IH | p IH | ]; simpl digits2_pos.
  - rewrite Pos2Z.inj_succ.
    replace (Z.succ (Zpos (digits2_pos p)) - 1)
      with (Z.succ (Zpos (digits2_pos p) - 1)) by lia.
    rewrite !Z.pow_succ_r by lia. lia.
  - rewrite Pos2Z.inj_succ.
    replace (Z.succ (Zpos (digits2_pos p)) - 1)
      with (Z.succ (Zpos (digits2_pos p) - 1)) by lia.
    rewrite !Z.pow_succ_r by lia. lia.
  - simpl. lia.
Qed.

Lemma shr_1_m mrs :
  0 <= shr_m mrs -> shr_m (shr_1 mrs) = shr_m mrs / 2.
Proof.
  destruct mrs as [m r s]. simpl. intros H.
  destruct m as [|[p|p|]|p]; simpl; try lia; try reflexivity.
  - rewrite Pos2Z.inj_xI. apply Z.div_unique with 1; lia.
  - rewrite Pos2Z.inj_xO. apply Z.div_unique with 0; lia.
Qed.

Lemma iter_shr_1_m (k : positive) : forall mrs,
  0 <= shr_m mrs ->
  shr_m (iter_pos shr_1 k mrs) = shr_m mrs / 2 ^ Zpos k.
Proof.
  assert (step : forall mrs, 0 <= shr_m mrs -> 0 <= shr_m (shr_1 mrs)).
  { intros mrs H. rewrite shr_1_m by assumption. apply Z.div_pos; lia. }
  induction k as [k IH | k IH | ]; intros mrs H; simpl iter_pos.
  - assert (Hp : 0 < 2 ^ Zpos k) by (apply Z.pow_pos_nonneg; lia).
    assert (H1 := step mrs H).
    assert (H2 : 0 <= shr_m (iter_pos shr_1 k (shr_1 mrs))).
    { rewrite IH by assumption. apply Z.div_pos; assumption. }
    rewrite IH, IH, shr_1_m by assumption.
    rewrite !Z.div_div by lia.
    f_equal. rewrite Pos2Z.inj_xI.
    rewrite <- Z.pow_add_r, <- Z.pow_succ_r by lia. f_equal. lia.
  - assert (Hp : 0 < 2 ^ Zpos k) by (apply Z.pow_pos_nonneg; lia).
    assert (H2 : 0 <= shr_m (iter_pos shr_1 k mrs)).
    { rewrite IH by assumption. apply Z.div_pos; assumption. }
    rewrite IH, IH by assumption.
    rewrite Z.div_div by lia.
    f_equal. rewrite Pos2Z.inj_xO, <- Z.pow_add_r by lia. f_equal. lia.
  - rewrite shr_1_m by assumption. reflexivity.
Qed.

Lemma shr_record_of_loc_m m l : shr_m (shr_record_of_loc m l) = m.
Proof. destruct l as [|[| |]]; reflexivity. Qed.

(** Above exponent -1000 the shift to the target exponent keeps a
    positive mantissa positive. *)
Lemma shr_fexp_pos (p : positive) e l :
  -1000 <= e ->
  0 < shr_m (fst (shr_fexp prec emax (Zpos p) e l))
  /\ e <= snd (shr_fexp prec emax (Zpos p) e l).
Proof.
  intros He. unfold shr_fexp, shr, fexp, emin, prec, emax, Zdigits2.
  pose proof (digits2_pos_bounds p) as [Hlo _].
  set (d := Zpos (digits2_pos p)) in *.
  assert (Hd : 0 < d) by (unfold d; lia).
  replace (Z.max (d + e - 53) (3 - 1024 - 53) - e) with (d - 53) by lia.
  destruct (d - 53) as [|k|k] eqn:Ek; simpl fst; simpl snd.
  - rewrite shr_record_of_loc_m. lia.
  - rewrite iter_shr_1_m by (rewrite shr_record_of_loc_m; lia).
    rewrite shr_record_of_loc_m. split; [|lia].
    apply Z.div_str_pos. split; [apply Z.pow_pos_nonneg; lia|].
    apply Z.le_trans with (2 ^ (d - 1)); [|assumption].
    apply Z.pow_le_mono_r; lia.
  - rewrite shr_record_of_loc_m. lia.
Qed.

Lemma round_nearest_even_pos m l : 0 < m -> 0 < round_nearest_even m l.
Proof.
  intros H. unfold round_nearest_even.
  destruct l as [|[| |]]; try destruct (Z.even m); lia.
Qed.

(** Rounding a positive mantissa at an exponent above -1000 gives a
    positive finite number or positive infinity: no underflow to zero. *)
Lemma binary_round_aux_pos (p : positive) e l :
  -1000 <= e ->
  gt (binary_round_aux prec emax false (Zpos p) e l) zero = true.
Proof.
  intros He. unfold binary_round_aux.
  destruct (shr_fexp_pos p e l He) as [H1 H1e].
  destruct (shr_fexp prec emax (Zpos p) e l) as [mrs' e'].
  simpl fst in H1; simpl snd in H1e.
  pose proof (round_nearest_even_pos _ (loc_of_shr_record mrs') H1) as H2.
  destruct (round_nearest_even (shr_m mrs') (loc_of_shr_record mrs'))
    as [|q|q]; try lia.
  assert (He' : -1000 <= e') by lia.
  destruct (shr_fexp_pos q e' loc_Exact He') as [H3 _].
  destruct (shr_fexp prec emax (Zpos q) e' loc_Exact) as [mrs'' e''].
  simpl fst in H3.
  destruct (shr_m mrs'') as [|m|m]; try lia.
  destruct (e'' <=? emax - prec); reflexivity.
Qed.

(** The quotient of two positive integers does not round to zero as long
    as the divisor has at most 900 binary digits more than the
    dividend. *)
Lemma SFdiv_pos (m1 m2 : positive) :
  Zpos (digits2_pos m2) <= Zpos (digits2_pos m1) + 900 ->
  gt (SFdiv prec emax (S754_finite false m1 0) (S754_finite false m2 0))
     zero = true.
Proof.
  intros Hd. unfold SFdiv, SFdiv_core_binary, Zdigits2.
  pose proof (digits2_pos_bounds m1) as [L1 _].
  pose proof (digits2_pos_bounds m2) as [_ U2].
  set (d1 := Zpos (digits2_pos m1)) in *.
  set (d2 := Zpos (digits2_pos m2)) in *.
  assert (P1 : 0 < d1) by (unfold d1; lia).
  assert (P2 : 0 < d2) by (unfold d2; lia).
  unfold fexp, emin, prec, emax.
  replace (Z.max (d1 + 0 - (d2 + 0) - 53) (3 - 1024 - 53))
    with (d1 - d2 - 53) by lia.
  set (e' := Z.min (d1 - d2 - 53) (0 - 0)).
  set (m' := match 0 - 0 - e' with
             | Zpos _ => Z.shiftl (Zpos m1) (0 - 0 - e')
             | 0 => Zpos m1
             | Zneg _ => 0
             end).
  assert (Hm : Zpos m2 <= m').
  { unfold m'. destruct (0 - 0 - e') as [|s|s] eqn:Es.
    - assert (d2 + 52 <= d1 - 1) by (unfold e' in Es; lia).
      apply Z.le_trans with (2 ^ d2); [lia|].
      apply Z.le_trans with (2 ^ (d1 - 1)); [|assumption].
      apply Z.pow_le_mono_r; lia.
    - rewrite Z.shiftl_mul_pow2 by lia.
      assert (Hs : Zpos s = 53 + d2 - d1) by (unfold e' in Es; lia).
      apply Z.le_trans with (2 ^ d2); [lia|].
      apply Z.le_trans with (2 ^ (d1 - 1) * 2 ^ Zpos s).
      + rewrite <- Z.pow_add_r by lia. apply Z.pow_le_mono_r; lia.
      + apply Z.mul_le_mono_nonneg_r; [apply Z.pow_nonneg; lia | assumption].
    - unfold e' in Es. lia. }
  assert (Hq : 0 < m' / Zpos m2) by (apply Z.div_str_pos; lia).
  unfold Z.div in Hq.
  destruct (Z.div_eucl m' (Zpos m2)) as [q r]. simpl fst in Hq.
  destruct q as [|q|q]; try lia.
  apply binary_round_aux_pos. unfold e'. lia.
Qed.

(** A positive integer with at most two decimals shifted out keeps a
    positive Number value. *)
Lemma roundMV_pos (p : positive) (e10 : Z) :
  -2 <= e10 <= 0 ->
  gt (roundMV false (Zpos p) e10) zero = true.
Proof.
  intros H. unfold roundMV. apply SFdiv_pos.
  assert (D : Zpos (digits2_pos (Z.to_pos (10 ^ Z.max (- e10) 0))) <= 7).
  { assert (C : e10 = 0 \/ e10 = -1 \/ e10 = -2) by lia.
    destruct C as [-> | [-> | ->]]; vm_compute; discriminate. }
  pose proof (Pos2Z.is_pos
                (digits2_pos (p * Z.to_pos (10 ^ Z.max e10 0)))).
  lia.
Qed.

Lemma roundMV_zero neg e10 : roundMV neg 0 e10 = S754_zero neg.
Proof. reflexivity. Qed.

End Rounding.

(* ================================================================== *)
(** * Parsing the amount text *)
(* ================================================================== *)

Module ParsedAmount.
Import JS DepositBox Contract JSFacts SubmitFacts Sample Lifecycle.
Import AmountFormat Rounding.

(** What the parser sees in a digit or a point. *)
Lemma allowed_unit c :
  isDigit c || isPoint c = true ->
  isWhiteSpace c = false
  /\ Ascii.eqb c "+" = false
  /\ Ascii.eqb c "-" = false
  /\ (forall s, String.prefix "Infinity" (String c s) = false)
  /\ (isDigit c = false -> c = "."%char)
  /\ (isDigit c = true -> isPoint c = false).
Proof.
  destruct c as [[] [] [] [] [] [] [] []]; vm_compute;
    try discriminate; intros _; repeat split; try discriminate;
    try reflexivity.
Qed.

Lemma digit_value c :
  isDigit c = true ->
  (0 <= digitValue c <= 9)%Z
  /\ (digitValue c = 0%Z <-> isNonZeroDigit c = false).
Proof.
  destruct c as [[] [] [] [] [] [] [] []]; vm_compute;
    try discriminate; intros _; repeat split; try discriminate;
    try reflexivity.
Qed.

Lemma takeDigits_spec s :
  s = (fst (takeDigits s) ++ snd (takeDigits s))%string
  /\ all isDigit (fst (takeDigits s)) = true
  /\ match snd (takeDigits s) with
     | String c _ => isDigit c = false
     | EmptyString => True
     end.
Proof.
  induction s as [|c s IH]; simpl; [auto|].
  destruct (isDigit c) eqn:E.
  - destruct (takeDigits s) as [ds rest]. simpl in *.
    destruct IH as (IH1 & IH2 & IH3). rewrite E.
    repeat split; [now f_equal | assumption | assumption].
  - simpl. auto.
Qed.

Lemma takeDigits_all ds :
  all isDigit ds = true -> takeDigits ds = (ds, "").
Proof.
  induction ds as [|c ds IH]; simpl; [reflexivity|].
  intros H%andb_prop. destruct H as [-> H]. now rewrite (IH H).
Qed.

Lemma all_app p a b :
  all p (a ++ b)%string = all p a && all p b.
Proof.
  induction a as [|c a IH]; simpl; [reflexivity|].
  now rewrite IH, andb_assoc.
Qed.

Lemma any_app p a b :
  any p (a ++ b)%string = any p a || any p b.
Proof.
  induction a as [|c a IH]; simpl; [reflexivity|].
  now rewrite IH, orb_assoc.
Qed.

Lemma digits_no_point ds :
  all isDigit ds = true -> countPoints ds = 0 /\ afterPoint ds = None.
Proof.
  induction ds as [|c ds IH]; simpl; [auto|].
  intros H%andb_prop. destruct H as [Hc H].
  assert (P : isPoint c = false).
  { apply allowed_unit; [now rewrite Hc | assumption]. }
  rewrite P. auto.
Qed.

Lemma allowed_digits s :
  all (fun c => isDigit c || isPoint c) s = true ->
  countPoints s = 0 ->
  all isDigit s = true.
Proof.
  induction s as [|c s IH]; simpl; [reflexivity|].
  intros H%andb_prop. destruct H as [Hc H].
  destruct (isPoint c); [discriminate|].
  rewrite orb_false_r in Hc. rewrite Hc. intros C. now apply IH.
Qed.

Lemma afterPoint_app_digits ds r :
  all isDigit ds = true ->
  afterPoint (ds ++ String "." r)%string = Some r.
Proof.
  induction ds as [|c ds IH]; simpl; [reflexivity|].
  intros H%andb_prop. destruct H as [Hc H].
  assert (P : isPoint c = false).
  { apply allowed_unit; [now rewrite Hc | assumption]. }
  rewrite P. now apply IH.
Qed.

(** An amount text is a run of digits, alone or followed by a point and
    at most two digits. *)
Lemma amountText_shape s :
  amountText s = true ->
  exists ip, all isDigit ip = true
    /\ (s = ip
        \/ exists fp, s = (ip ++ String "." fp)%string
             /\ all isDigit fp = true /\ String.length fp <= 2).
Proof.
  intros (A & C & D)%amountText_parts.
  destruct (takeDigits_spec s) as (E & I & R).
  exists (fst (takeDigits s)). split; [assumption|].
  destruct (snd (takeDigits s)) as [|c r].
  - left. rewrite E at 1. clear. induction (fst (takeDigits s)); simpl;
      [reflexivity | now f_equal].
  - right. exists r.
    rewrite E, all_app in A. apply andb_prop in A as [_ A]. simpl in A.
    apply andb_prop in A as [Ac Ar].
    assert (c = "."%char) as -> by (now apply allowed_unit).
    rewrite E, countPoints_app in C. simpl in C.
    destruct (digits_no_point _ I) as [C0 _].
    assert (Fr : all isDigit r = true) by (apply allowed_digits; [assumption | lia]).
    split; [assumption|]. split; [assumption|].
    unfold digitsAfterPoint in D. rewrite E, (afterPoint_app_digits _ r I) in D.
    rewrite (filter_all_id _ _ Fr) in D. exact D.
Qed.

Lemma decimalValue_digits ds :
  all isDigit ds = true ->
  forall acc, (0 <= acc)%Z ->
  (0 <= decimalValue acc ds)%Z
  /\ (decimalValue acc ds = 0%Z <-> acc = 0%Z /\ hasNonZeroDigit ds = false).
Proof.
  induction ds as [|c ds IH]; cbn [all decimalValue]; intros H acc Hacc.
  - split; [assumption | unfold hasNonZeroDigit; simpl; tauto].
  - apply andb_prop in H as [Hc H].
    destruct (digit_value c Hc) as [B Z0].
    assert (Hn : (0 <= 10 * acc + digitValue c)%Z) by lia.
    destruct (IH H _ Hn) as [P Q]. split; [assumption|].
    rewrite Q. unfold hasNonZeroDigit. cbn [any].
    rewrite orb_false_iff, <- Z0. split.
    + intros [E N]. repeat split; [lia | lia | exact N].
    + intros [E [D N]]. split; [lia | exact N].
Qed.

Lemma parseFloat_digits ip :
  all isDigit ip = true -> truthy ip = true ->
  parseFloat ip = roundMV false (decimalValue 0 ip) 0.
Proof.
  intros I T. destruct ip as [|c ip]; [discriminate|].
  pose proof I as Ic. simpl in Ic. apply andb_prop in Ic as [Ic _].
  assert (A : isDigit c || isPoint c = true) by now rewrite Ic.
  destruct (allowed_unit c A) as (W & Pl & Mi & Inf & _).
  unfold parseFloat. simpl trimStart. rewrite W, Pl, Mi.
  unfold strUnsignedDecimalLiteral. rewrite Inf, (takeDigits_all _ I).
  reflexivity.
Qed.

Lemma parseFloat_point ip fp :
  all isDigit ip = true -> all isDigit fp = true ->
  parseFloat (ip ++ String "." fp) =
  if truthy ip || truthy fp
  then roundMV false (decimalValue 0 (ip ++ fp)%string)
         (- Z.of_nat (String.length fp))
  else NaN.
Proof.
  intros I F.
  assert (TD : takeDigits (ip ++ String "." fp) = (ip, String "."%char fp)).
  { clear F. induction ip as [|c ip IH]; simpl; [reflexivity|].
    simpl in I. apply andb_prop in I as [-> I]. now rewrite (IH I). }
  assert (Body : strUnsignedDecimalLiteral false (ip ++ String "." fp) =
                 if truthy ip || truthy fp
                 then roundMV false (decimalValue 0 (ip ++ fp)%string)
                        (- Z.of_nat (String.length fp))
                 else NaN).
  { unfold strUnsignedDecimalLiteral.
    replace (String.prefix "Infinity" (ip ++ String "." fp)) with false.
    - rewrite TD. simpl isPoint. cbv iota. rewrite (takeDigits_all _ F).
      reflexivity.
    - destruct ip as [|c ip]; [reflexivity|].
      simpl in I. apply andb_prop in I as [Ic _]. symmetry.
      apply allowed_unit. now rewrite Ic. }
  destruct ip as [|c ip].
  - exact Body.
  - pose proof I as Ic. simpl in Ic. apply andb_prop in Ic as [Ic _].
    assert (A : isDigit c || isPoint c = true) by now rewrite Ic.
    destruct (allowed_unit c A) as (W & Pl & Mi & _).
    unfold parseFloat. simpl trimStart. rewrite W, Pl, Mi. exact Body.
Qed.

Lemma point_not_digit s :
  hasNonZeroDigit (String "." s) = hasNonZeroDigit s.
Proof. reflexivity. Qed.

(** The parse of an amount text: NaN for the empty text and the lone
    point, zero when every digit is 0, greater than zero otherwise. *)
Lemma parseFloat_amountText s :
  amountText s = true ->
  (hasNonZeroDigit s = true /\ gt (parseFloat s) zero = true)
  \/ (hasNonZeroDigit s = false
      /\ ((s = "" \/ s = ".") /\ parseFloat s = NaN
          \/ (s <> "" /\ s <> "." /\ parseFloat s = zero))).
Proof.
  intros W. destruct (amountText_shape s W) as (ip & I & [-> | (fp & -> & F & L)]).
  - destruct ip as [|c ip]; [right; split; [reflexivity|]; left; auto|].
    rewrite (parseFloat_digits _ I eq_refl).
    destruct (decimalValue_digits _ I 0%Z (Z.le_refl 0)) as [P Q].
    destruct (hasNonZeroDigit (String c ip)) eqn:N.
    + left. split; [reflexivity|].
      assert (V : decimalValue 0 (String c ip) <> 0%Z)
        by (intros V; apply Q in V; destruct V; discriminate).
      destruct (decimalValue 0 (String c ip)) as [|v|v];
        [contradiction | apply roundMV_pos; lia | lia].
    + right. split; [reflexivity|]. right.
      assert (V : decimalValue 0 (String c ip) = 0%Z) by (apply Q; auto).
      rewrite V. repeat split; try discriminate.
      simpl in I. apply andb_prop in I as [Ic _].
      intros [= -> _]. discriminate.
  - rewrite (parseFloat_point _ _ I F).
    assert (IF : all isDigit (ip ++ fp)%string = true)
      by (rewrite all_app, I, F; reflexivity).
    destruct (decimalValue_digits _ IF 0%Z (Z.le_refl 0)) as [P Q].
    assert (N : hasNonZeroDigit (ip ++ String "." fp)
                = hasNonZeroDigit (ip ++ fp)%string).
    { unfold hasNonZeroDigit. rewrite !any_app. reflexivity. }
    rewrite N.
    destruct (truthy ip || truthy fp) eqn:T.
    + destruct (hasNonZeroDigit (ip ++ fp)%string) eqn:H.
      * left. split; [reflexivity|].
        assert (V : decimalValue 0 (ip ++ fp)%string <> 0%Z)
          by (intros V; apply Q in V; destruct V; discriminate).
        destruct (decimalValue 0 (ip ++ fp)%string) as [|v|v];
          [contradiction | apply roundMV_pos; lia | lia].
      * right. split; [reflexivity|]. right.
        assert (V : decimalValue 0 (ip ++ fp)%string = 0%Z) by (apply Q; auto).
        rewrite V. repeat split.
        -- destruct ip; discriminate.
        -- destruct ip as [|c ip]; [destruct fp; [discriminate T|discriminate]|].
           destruct ip; discriminate.
    + apply orb_false_elim in T as [Ti Tf].
      apply truthy_false in Ti, Tf. subst. right. split; [reflexivity|].
      left. auto.
Qed.

(** X4.  In every reachable state the amount fails to parse (NaN)
    exactly when the amount text is empty or is the lone point. *)
Theorem amount_unparsable_iff ctx props st :
  reachable ctx props st ->
  (isNaN (parseFloat (amount st)) = true
   <-> amount st = "" \/ amount st = ".").
Proof.
  intros R. pose proof (reachable_amountText ctx props st R) as W.
  destruct (parseFloat_amountText _ W)
    as [[_ G] | [_ [[E ->] | (N1 & N2 & ->)]]].
  - apply gt_zero_valid in G. apply orb_false_elim in G as [G _].
    rewrite G. split; [discriminate|].
    intros [E | E]; rewrite E in G; discriminate G.
  - tauto.
  - split; [discriminate | tauto].
Qed.

Lemma amount_unparsable_iff_witness :
  (isNaN (parseFloat (amount (typed noMethods "."))) = true
   <-> amount (typed noMethods ".") = ""
       \/ amount (typed noMethods ".") = ".")
  /\ (isNaN (parseFloat (amount (typed noMethods "0.5"))) = true
      <-> amount (typed noMethods "0.5") = ""
          \/ amount (typed noMethods "0.5") = ".").
Proof.
  split.
  - apply (amount_unparsable_iff noMethods noCallbacks (typed noMethods ".")).
    apply reach_change, reach_mount.
  - apply (amount_unparsable_iff noMethods noCallbacks
             (typed noMethods "0.5")).
    apply reach_change, reach_mount.
Defined.

(** X5.  In every reachable state the amount check of the submit handler
    is a digit check: the amount is rejected (NaN or [<= 0]) exactly when
    the amount text has no digit other than 0, and then submit reports
    the invalid amount without calling the deposit operation; with a
    digit from 1 to 9 the check passes. *)
Theorem amount_valid_iff_nonzero_digit ctx props st :
  reachable ctx props st ->
  isNaN (parseFloat (amount st)) || le (parseFloat (amount st)) zero
  = negb (hasNonZeroDigit (amount st))
  /\ gt (parseFloat (amount st)) zero = hasNonZeroDigit (amount st)
  /\ (hasNonZeroDigit (amount st) = false ->
      handleSubmit ctx props st
      = Finished [PreventDefault; SetError None;
                  SetError (Some (t ctx "invalid_amount"));
                  SetIsProcessing false]).
Proof.
  intros R. pose proof (reachable_amountText ctx props st R) as W.
  assert (G : gt (parseFloat (amount st)) zero = hasNonZeroDigit (amount st)).
  { destruct (parseFloat_amountText _ W)
      as [[-> G] | [-> [[_ E] | (_ & _ & E)]]];
      [assumption | rewrite E; reflexivity | rewrite E; reflexivity]. }
  split; [|split; [exact G|]].
  - destruct (hasNonZeroDigit (amount st)).
    + now apply gt_zero_valid.
    + apply gt_zero_invalid in G. simpl. destruct G as [-> | ->];
        [reflexivity | apply orb_true_r].
  - intros N. apply handleSubmit_invalid. now rewrite G.
Qed.

Lemma amount_valid_iff_nonzero_digit_witness :
  let st := typed oneCard "0.00" in
  hasNonZeroDigit (amount st) = false
  /\ isNaN (parseFloat (amount st)) || le (parseFloat (amount st)) zero = true
  /\ gt (parseFloat (amount st)) zero = false
  /\ (hasNonZeroDigit (amount st) = false ->
      handleSubmit oneCard bothCallbacks st
      = Finished [PreventDefault; SetError None;
                  SetError (Some "invalid_amount"); SetIsProcessing false]).
Proof.
  cbv zeta. split; [reflexivity|].
  apply (amount_valid_iff_nonzero_digit oneCard bothCallbacks
           (typed oneCard "0.00")).
  apply reach_change, reach_mount.
Defined.

(** X6.  In every reachable state the submit button is enabled exactly
    when nothing is processing and the amount text has a digit other
    than 0 or is the lone point; apart from the lone point the button is
    disabled exactly when processing, or the amount text is empty, or
    the parsed amount is not greater than zero. *)
Theorem submit_button_enabled_iff ctx props st :
  reachable ctx props st ->
  submitDisabled st
  = isProcessing st
    || negb (hasNonZeroDigit (amount st) || String.eqb (amount st) ".")
  /\ (String.eqb (amount st) "." = false ->
      submitDisabled st = submitControlDisabled st).
Proof.
  intros R. pose proof (reachable_amountText ctx props st R) as W.
  unfold submitDisabled, submitControlDisabled.
  destruct (parseFloat_amountText _ W)
    as [[N G] | [N [[[E | E] P] | (N1 & N2 & P)]]].
  - rewrite N, G. apply gt_zero_valid in G.
    apply orb_false_elim in G as [_ ->].
    destruct (amount st); [discriminate N|]. simpl.
    rewrite !orb_false_r. auto.
  - rewrite E. simpl. rewrite !orb_true_r. auto.
  - rewrite E. simpl. rewrite !orb_false_r. split; [reflexivity|discriminate].
  - rewrite N, P. simpl.
    assert (X : String.eqb (amount st) "." = false)
      by (apply String.eqb_neq; assumption).
    rewrite X. simpl. rewrite !orb_true_r. auto.
Qed.

Lemma submit_button_enabled_iff_witness :
  let st := typed oneCard "0.05" in
  submitDisabled st = false
  /\ submitDisabled st
     = isProcessing st
       || negb (hasNonZeroDigit (amount st) || String.eqb (amount st) ".")
  /\ (String.eqb (amount st) "." = false ->
      submitDisabled st = submitControlDisabled st).
Proof.
  cbv zeta. split; [reflexivity|].
  apply (submit_button_enabled_iff oneCard bothCallbacks
           (typed oneCard "0.05")).
  apply reach_change, reach_mount.
Defined.

End ParsedAmount.

(* ================================================================== *)
(** * What reaches the deposit operation *)
(* ================================================================== *)

Module Dispatch.
Import JS DepositBox Contract JSFacts SubmitFacts Sample Lifecycle.
Import AmountFormat ParsedAmount.

(** X7.  In every reachable state, a deposit call made by the submit
    handler carries the parse of the amount text, which is greater than
    zero, and the selected method id; that id is the id of a listed
    payment method and not empty, except when no method is listed, where
    it is empty. *)
Theorem deposit_arguments ctx props st n m :
  reachable ctx props st ->
  In (n, m) (depositCalls (handleSubmit ctx props st)) ->
  n = parseFloat (amount st)
  /\ gt n zero = true
  /\ hasNonZeroDigit (amount st) = true
  /\ m = selectedMethodId st
  /\ (paymentMethods ctx = [] /\ m = ""
      \/ m <> "" /\ exists pm, In pm (paymentMethods ctx) /\ id pm = m).
Proof.
  intros R Hin.
  destruct (handleSubmit ctx props st) as [effs | pre n' m' resume] eqn:E;
    simpl in Hin; [contradiction|].
  destruct Hin as [[= <- <-] | []].
  apply handleSubmit_awaiting in E as (_ & -> & -> & _ & G & S).
  pose proof (reachable_amountText ctx props st R) as W.
  split; [reflexivity|]. split; [exact G|]. split.
  - destruct (parseFloat_amountText _ W) as [[N _] | [_ [[_ P] | (_ & _ & P)]]];
      [exact N | rewrite P in G; discriminate | rewrite P in G; discriminate].
  - split; [reflexivity|].
    destruct (selection_is_listed ctx props st R) as [E0 | (pm & Hpm & Hid)].
    + destruct S as [S | S]; [contradiction|]. left. auto.
    + destruct (paymentMethods ctx) as [|x l] eqn:L; [destruct Hpm|].
      right. destruct S as [S | S]; [|discriminate].
      split; [exact S|]. exists pm. auto.
Qed.

Lemma deposit_arguments_witness :
  let st := typed oneCard "25.5" in
  parseFloat "25.5" = parseFloat (amount st)
  /\ gt (parseFloat "25.5") zero = true
  /\ hasNonZeroDigit (amount st) = true
  /\ "m1" = selectedMethodId st
  /\ (paymentMethods oneCard = [] /\ "m1" = ""
      \/ "m1" <> "" /\ exists pm, In pm (paymentMethods oneCard) /\ id pm = "m1").
Proof.
  cbv zeta.
  apply (deposit_arguments oneCard bothCallbacks (typed oneCard "25.5")
           (parseFloat "25.5") "m1").
  - apply reach_change, reach_mount.
  - left. reflexivity.
Defined.

(** X8.  The first submit after mount, once a valid amount has been
    typed, with payment methods listed: when a method is flagged default
    (the first such one, with a non-empty id) the deposit operation is
    called with that method's id, without any click on the list; when no
    method is flagged default nothing is called and the error is the
    select-payment-method localization. *)
Theorem first_submit_after_mount ctx props raw :
  paymentMethods ctx <> [] ->
  gt (parseFloat (amount (run (handleAmountChange raw) (mount ctx)))) zero
  = true ->
  let st := run (handleAmountChange raw) (mount ctx) in
  let p := handleSubmit ctx props st in
  match find isDefault (paymentMethods ctx) with
  | Some m =>
      In m (paymentMethods ctx)
      /\ depositCalls p
         = (if truthy (id m) then [(parseFloat (amount st), id m)] else [])
  | None =>
      depositCalls p = []
      /\ error (run (before p) st) = Some (t ctx "select_payment_method")
  end.
Proof.
  intros Hm G. cbv zeta.
  set (st := run (handleAmountChange raw) (mount ctx)) in *.
  assert (S : selectedMethodId st = selectedMethodId (mount ctx)).
  { unfold st. apply run_keepsSelection, handleAmountChange_keepsSelection. }
  unfold mount, selectDefault, defaultMethod in S.
  destruct (find isDefault (paymentMethods ctx)) as [m|] eqn:F; simpl in S.
  - split; [apply find_some in F; tauto|].
    destruct (truthy (id m)) eqn:T.
    + rewrite (handleSubmit_dispatch ctx props st G).
      * simpl. now rewrite S.
      * left. rewrite S. intros E. rewrite E in T. discriminate.
    + apply truthy_false in T. rewrite T in S.
      now rewrite (handleSubmit_no_method ctx props st G S Hm).
  - now rewrite (handleSubmit_no_method ctx props st G S Hm).
Qed.

Lemma first_submit_after_mount_witness :
  (let st := run (handleAmountChange "25.5") (mount oneCard) in
   In card (paymentMethods oneCard)
   /\ depositCalls (handleSubmit oneCard bothCallbacks st)
      = [(parseFloat "25.5", "m1")])
  /\ (let st := run (handleAmountChange "25.5") (mount onePaypal) in
      depositCalls (handleSubmit onePaypal bothCallbacks st) = []
      /\ error (run (before (handleSubmit onePaypal bothCallbacks st)) st)
         = Some "select_payment_method").
Proof.
  split.
  - apply (first_submit_after_mount oneCard bothCallbacks "25.5").
    + discriminate.
    + reflexivity.
  - apply (first_submit_after_mount onePaypal bothCallbacks "25.5").
    + discriminate.
    + reflexivity.
Defined.

Lemma highlighted_filter ctx st :
  success st = false ->
  highlighted (render ctx st)
  = List.filter (fun pm => String.eqb (selectedMethodId st) (id pm))
                (paymentMethods ctx).
Proof.
  intros Hs. unfold render. rewrite Hs. simpl.
  induction (paymentMethods ctx) as [|a l IH]; simpl; [reflexivity|].
  destruct (String.eqb _ (id a)); simpl; now rewrite IH.
Qed.

Lemma filter_unique_id sel (l : list PaymentMethod) pm :
  NoDup (map id l) -> In pm l -> id pm = sel ->
  List.filter (fun x => String.eqb sel (id x)) l = [pm].
Proof.
  induction l as [|a l IH]; simpl; intros N Hin E; [contradiction|].
  inversion N as [|? ? Hnot N']; subst.
  assert (None_l : forall x, In x l -> id x <> id a).
  { intros x Hx Ex. apply Hnot. rewrite <- Ex. now apply in_map. }
  destruct Hin as [-> | Hin].
  - rewrite String.eqb_refl. f_equal.
    clear IH N N' Hnot. induction l as [|b l IHl]; simpl; [reflexivity|].
    assert (Hb : String.eqb (id pm) (id b) = false).
    { apply String.eqb_neq. intros Eb. apply (None_l b); simpl; auto. }
    rewrite Hb. apply IHl. intros x Hx. apply None_l. simpl. auto.
  - assert (Ha : String.eqb (id pm) (id a) = false).
    { apply String.eqb_neq. now apply None_l. }
    rewrite Ha. now apply IH.
Qed.

(** X10.  With pairwise distinct method ids, in every reachable state
    that shows the form with a non-empty selection, exactly one entry of
    the method list is drawn as selected, and it is a listed method with
    the selected id. *)
Theorem one_method_highlighted ctx props st :
  NoDup (map id (paymentMethods ctx)) ->
  reachable ctx props st ->
  success st = false ->
  selectedMethodId st <> "" ->
  exists pm,
    highlighted (render ctx st) = [pm]
    /\ In pm (paymentMethods ctx)
    /\ id pm = selectedMethodId st.
Proof.
  intros N R Hs Hsel.
  destruct (selection_is_listed ctx props st R) as [E | (pm & Hin & Hid)];
    [contradiction|].
  exists pm. rewrite (highlighted_filter ctx st Hs).
  rewrite (filter_unique_id _ _ pm N Hin Hid). auto.
Qed.

Lemma one_method_highlighted_witness :
  let ctx := {| paymentMethods := [paypal; card]; t := keys |} in
  exists pm,
    highlighted (render ctx (mount ctx)) = [pm]
    /\ In pm (paymentMethods ctx)
    /\ id pm = selectedMethodId (mount ctx).
Proof.
  cbv zeta.
  apply (one_method_highlighted
           {| paymentMethods := [paypal; card]; t := keys |} noCallbacks).
  - repeat constructor; simpl; intuition discriminate.
  - apply reach_mount.
  - reflexivity.
  - discriminate.
Defined.

End Dispatch.

(* ================================================================== *)
(** * Idle, busy, done *)
(* ================================================================== *)

Module Phases.
Import JS DepositBox Contract JSFacts SubmitFacts Sample Lifecycle.
Import AmountFormat ParsedAmount.

Lemma handleSubmit_cases ctx props st :
  (exists e, handleSubmit ctx props st
             = Finished [PreventDefault; SetError None; SetError (Some e);
                         SetIsProcessing false])
  \/ (gt (parseFloat (amount st)) zero = true
      /\ handleSubmit ctx props st
         = Awaiting [PreventDefault; SetError None; SetIsProcessing true]
             (parseFloat (amount st)) (selectedMethodId st)
             (afterAwait ctx props (parseFloat (amount st)))).
Proof.
  destruct (gt (parseFloat (amount st)) zero) eqn:G.
  - destruct (truthy (selectedMethodId st)) eqn:T.
    + right. split; [reflexivity|]. apply handleSubmit_dispatch; [assumption|].
      left. intros E. rewrite E in T. discriminate.
    + destruct (paymentMethods ctx) as [|pm l] eqn:L.
      * right. split; [reflexivity|].
        apply handleSubmit_dispatch; [assumption | now right].
      * left. eexists. apply handleSubmit_no_method; [assumption| |].
        -- now apply truthy_false.
        -- rewrite L. discriminate.
  - left. eexists. now apply handleSubmit_invalid.
Qed.

Lemma deposits_app a b : deposits (a ++ b) = deposits a ++ deposits b.
Proof.
  induction a as [|c a IH]; simpl; [reflexivity|].
  destruct c; simpl; now rewrite IH.
Qed.

Lemma notifications_app a b :
  notifications (a ++ b) = notifications a ++ notifications b.
Proof.
  induction a as [|c a IH]; simpl; [reflexivity|].
  destruct c; simpl; now rewrite IH.
Qed.

Lemma deposits_callbacks effs : deposits (callbacks effs) = [].
Proof.
  induction effs as [|e effs IH]; simpl; [reflexivity|].
  destruct e; simpl; assumption.
Qed.

Lemma lastDeposit_callbacks cs effs :
  lastDeposit (cs ++ callbacks effs) = lastDeposit cs.
Proof.
  unfold lastDeposit.
  now rewrite deposits_app, deposits_callbacks, app_nil_r.
Qed.

Lemma lastDeposit_snoc cs n m :
  lastDeposit (cs ++ [Deposited n m]) = Some (n, m).
Proof.
  unfold lastDeposit. rewrite deposits_app. simpl.
  now rewrite rev_app_distr.
Qed.

Lemma lastNotification_snoc cs n :
  lastNotification (cs ++ [Notified n]) = Some n.
Proof.
  unfold lastNotification. rewrite notifications_app. simpl.
  now rewrite rev_app_distr.
Qed.

(** What a user event can do, by the view it acts on. *)
Lemma handleEvent_outcomes ctx props st ev :
  (exists effs,
      handleEvent ctx props st ev = Finished effs
      /\ (effs = [] \/ effs = [CallOnClose]
          \/ (success st = false
              /\ exists pm, In pm (paymentMethods ctx)
                   /\ effs = [SetSelectedMethodId (id pm)])
          \/ (success st = false /\ isProcessing st = false
              /\ exists raw v, handleAmountChange raw = [SetAmount v]
                   /\ effs = [SetAmount v])))
  \/ (success st = false /\ isProcessing st = false
      /\ (exists e, handleEvent ctx props st ev
                    = Finished [PreventDefault; SetError None;
                                SetError (Some e); SetIsProcessing false])
      /\ handleSubmit ctx props st = handleEvent ctx props st ev)
  \/ (success st = false /\ isProcessing st = false
      /\ gt (parseFloat (amount st)) zero = true
      /\ handleEvent ctx props st ev
         = Awaiting [PreventDefault; SetError None; SetIsProcessing true]
             (parseFloat (amount st)) (selectedMethodId st)
             (afterAwait ctx props (parseFloat (amount st)))
      /\ handleSubmit ctx props st = handleEvent ctx props st ev).
Proof.
  unfold handleEvent, render.
  destruct ev as [raw | i | | ].
  - left. destruct (success st) eqn:S; [eexists; split; [reflexivity|auto]|].
    cbn [inputDisabled]. destruct (isProcessing st) eqn:P;
      [eexists; split; [reflexivity|auto]|].
    eexists; split; [reflexivity|].
    destruct (AmountInput.handleAmountChange_shape raw) as [E | E];
      rewrite E; [auto|].
    right. right. right. eauto 8.
  - left. destruct (success st) eqn:S; [eexists; split; [reflexivity|auto]|].
    cbn [methodEntries].
    destruct (nth_error _ i) as [[pm b]|] eqn:N;
      eexists; (split; [reflexivity|]); [|auto].
    right. right. left. split; [reflexivity|]. exists pm.
    split; [|reflexivity].
    apply nth_error_In in N. apply in_map_iff in N as (x & [= <- _] & Hx).
    exact Hx.
  - destruct (success st) eqn:S; [left; eexists; split; [reflexivity|auto]|].
    cbn [buttonDisabled].
    destruct (submitDisabled st) eqn:D;
      [left; eexists; split; [reflexivity|auto]|].
    assert (P : isProcessing st = false).
    { unfold submitDisabled in D. destruct (isProcessing st);
        [discriminate | reflexivity]. }
    destruct (handleSubmit_cases ctx props st) as [[e E] | [G E]]; rewrite E.
    + right. left. eauto 8.
    + right. right. auto.
  - left. destruct (onClose props); eexists; (split; [reflexivity|]); auto.
Qed.

Section Preservation.
Variable ctx : Context.
Variable props : DepositBoxProps.

(** One action never leaves the three phases. *)
Lemma step_phase a w w' :
  idle w \/ busy ctx props w \/ done props w ->
  step ctx props a w = Some w' ->
  idle w' \/ busy ctx props w' \/ done props w'.
Proof.
  destruct a as [ev | i outcome | i].
  - (* the user acts *)
    unfold step.
    destruct (handleEvent_outcomes ctx props (state w) ev)
      as [(effs & -> & Q) | [(S & P & (e & ->) & _) | (S & P & G & -> & _)]];
      intros Ph [= <-].
    + assert (T : timeouts effs = [] /\ deposits (callbacks effs) = []
                  /\ notifications (callbacks effs) = []).
      { destruct Q as [-> | [-> | [(_ & x & _ & ->)
                                    | (_ & _ & raw & v & _ & ->)]]];
          simpl; auto. }
      destruct T as (T1 & T2 & T3).
      assert (LDq : lastDeposit (calls w ++ callbacks effs)
                    = lastDeposit (calls w)) by apply lastDeposit_callbacks.
      assert (LNq : lastNotification (calls w ++ callbacks effs)
                    = lastNotification (calls w)).
      { unfold lastNotification.
        now rewrite notifications_app, T3, app_nil_r. }
      unfold idle, busy, done in *. cbn [launch before perform state inflight
                                         timers calls].
      rewrite T1, app_nil_r, LDq, LNq.
      destruct Ph as [(Hp & Hs & Hi & Ht)
                     | [(Hp & Hs & He & Ht & G & m & Hi & LD)
                       | (Hp & Hs & He & Hi & Ht & LD & LN)]].
      * left.
        destruct Q as [-> | [-> | [(_ & x & _ & ->)
                                  | (_ & _ & raw & v & _ & ->)]]];
          simpl; auto.
      * right. left.
        destruct Q as [-> | [-> | [(_ & x & _ & ->)
                                  | (_ & Hp' & raw & v & _ & ->)]]];
          simpl; try (repeat split; try assumption; exists m; auto).
        congruence.
      * right. right.
        destruct Q as [-> | [-> | [(Hs' & x & _ & ->)
                                  | (Hs' & _ & raw & v & _ & ->)]]];
          simpl; try (repeat split; assumption); congruence.
    + unfold idle, busy, done in *. simpl.
      destruct Ph as [(Hp & Hs & Hi & Ht)
                     | [(Hp & Hs & He & Ht & G & m & Hi & LD)
                       | (Hp & Hs & He & Hi & Ht & LD & LN)]];
        [|congruence|congruence].
      left. rewrite Ht, Hs. auto.
    + unfold idle, busy, done in *. simpl.
      destruct Ph as [(Hp & Hs & Hi & Ht)
                     | [(Hp & Hs & He & Ht & G' & m & Hi & LD)
                       | (Hp & Hs & He & Hi & Ht & LD & LN)]];
        [|congruence|congruence].
      right. left. rewrite Ht, Hs, Hi, app_nil_r.
      repeat split; try assumption.
      exists (selectedMethodId (state w)).
      split; [reflexivity | apply lastDeposit_snoc].
  - (* a deposit call settles *)
    unfold step, idle, busy, done.
    intros [(Hp & Hs & Hi & Ht)
           | [(Hp & Hs & He & Ht & G & m & Hi & LD)
             | (Hp & Hs & He & Hi & Ht & LD & LN)]];
      rewrite Hi; [destruct i; discriminate | | destruct i; discriminate].
    destruct i as [|i]; [|destruct i; discriminate].
    cbn [nth_error remove_nth].
    destruct outcome as [|err]; intros [= <-].
    + right. right. simpl. rewrite Ht.
      destruct (onSuccess props) eqn:OS; simpl.
      * repeat split; try assumption.
        -- exists m.
           match goal with |- lastDeposit (_ ++ [Notified ?n]) = _ =>
             exact (eq_trans
                      (lastDeposit_callbacks (calls w) [CallOnSuccess n]) LD)
           end.
        -- apply lastNotification_snoc.
      * rewrite app_nil_r. repeat split; try assumption. exists m. exact LD.
    + left. destruct err as [|message]; simpl; rewrite Ht, Hs; auto.
  - (* a timer fires *)
    unfold step, idle, busy, done.
    intros [(Hp & Hs & Hi & Ht)
           | [(Hp & Hs & He & Ht & G & m & Hi & LD)
             | (Hp & Hs & He & Hi & Ht & LD & LN)]];
      rewrite Ht; [destruct i; discriminate | destruct i; discriminate |].
    destruct i as [|i]; [|destruct i; discriminate].
    cbn [nth_error remove_nth]. intros [= <-].
    left. destruct (onClose props); simpl; rewrite Hp, Hi; auto.
Qed.

Lemma remove_nth_In {A} (x : A) i l : In x (remove_nth i l) -> In x l.
Proof.
  revert i. induction l as [|a l IH]; intros [|i]; simpl; auto.
  intros [-> | H]; [auto | right; eauto].
Qed.

Lemma remove_nth_length {A} (x : A) i l :
  nth_error l i = Some x ->
  S (List.length (remove_nth i l)) = List.length l.
Proof.
  revert i. induction l as [|a l IH]; intros [|i]; simpl; try discriminate.
  - reflexivity.
  - intros H. now rewrite (IH i H).
Qed.

Lemma run_app a b st : run (a ++ b) st = run b (run a st).
Proof. revert st. induction a as [|e a IH]; simpl; auto. Qed.

(** One action keeps the books. *)
Lemma step_accounted a w w' :
  accounted ctx props w ->
  step ctx props a w = Some w' ->
  accounted ctx props w'.
Proof.
  intros (R & I & D & N & L).
  destruct a as [ev | i outcome | i]; unfold step.
  - destruct (handleEvent_outcomes ctx props (state w) ev)
      as [(effs & E & Q) | [(S & P & (e & E) & Hs) | (S & P & G & E & Hs)]];
      rewrite E; intros [= <-].
    + assert (T : deposits (callbacks effs) = []
                  /\ notifications (callbacks effs) = []
                  /\ reachable ctx props (run effs (state w))).
      { destruct Q as [-> | [-> | [(_ & pm & Hin & ->)
                                    | (_ & _ & raw & v & Hc & ->)]]];
          (split; [reflexivity | split; [reflexivity|]]).
        - exact R.
        - exact R.
        - now apply reach_select.
        - rewrite <- Hc. now apply reach_change. }
      destruct T as (T1 & T2 & T3).
      unfold accounted. cbn [launch before perform state inflight calls].
      rewrite deposits_app, notifications_app, T1, T2, !app_nil_r.
      split; [exact T3|]. split; [exact I|]. split; [exact D|].
      split; [exact N | exact L].
    + unfold accounted. cbn [launch before perform state inflight calls].
      simpl callbacks. rewrite app_nil_r.
      split; [|split; [exact I|split; [exact D|split; [exact N|exact L]]]].
      pose proof (reach_submit ctx props (state w) R) as R'.
      rewrite Hs, E in R'. exact R'.
    + unfold accounted. cbn [launch before perform state inflight calls].
      simpl callbacks. rewrite app_nil_r, deposits_app, notifications_app.
      simpl deposits. simpl notifications. rewrite app_nil_r, !length_app.
      simpl List.length.
      assert (R' : reachable ctx props
                     (run [PreventDefault; SetError None; SetIsProcessing true]
                          (state w))).
      { pose proof (reach_submit ctx props (state w) R) as R'.
        rewrite Hs, E in R'. exact R'. }
      rewrite E in Hs.
      split; [exact R'|]. split; [|split; [|split]].
      * intros n m k [Hin | Hin]%in_app_or.
        -- destruct (I n m k Hin) as (K & Dn & X).
           repeat split; try assumption. apply in_or_app. now left.
        -- destruct Hin as [[= <- <- <-] | []].
           split; [reflexivity|]. split; [apply in_or_app; right; simpl; auto|].
           eauto.
      * intros n m [Hin | Hin]%in_app_or; [now apply D|].
        destruct Hin as [[= <- <-] | []]. split; [assumption|].
        apply handleSubmit_awaiting in Hs as (_ & _ & _ & _ & _ & Sel).
        destruct (selection_is_listed ctx props (state w) R)
          as [E0 | (pm & Hpm & Hid)].
        -- destruct Sel as [Sel | Sel]; [contradiction|]. left. auto.
        -- destruct (paymentMethods ctx) as [|x l] eqn:Lm; [destruct Hpm|].
           right. destruct Sel as [Sel | Sel]; [|discriminate].
           split; [exact Sel|]. exists pm. auto.
      * intros n Hin. destruct (N n Hin) as (m & Hm). exists m.
        apply in_or_app. now left.
      * lia.
  - destruct (nth_error (inflight w) i) as [[[n m] k]|] eqn:Hi;
      [|discriminate].
    intros [= <-].
    pose proof (nth_error_In _ _ Hi) as Hin.
    destruct (I n m k Hin) as (K & Dn & st0 & pre & R0 & H0).
    pose proof (remove_nth_length _ _ _ Hi) as Len.
    unfold accounted. cbn [perform state inflight calls].
    rewrite deposits_app, deposits_callbacks, app_nil_r, notifications_app,
      length_app.
    split; [exact (reach_settle ctx props st0 (state w) pre n m k outcome
                     R0 H0 R)|].
    split; [intros n' m' k' Hr; apply I; now apply remove_nth_In in Hr|].
    clear I.
    split; [exact D|].
    assert (C : notifications (callbacks (k outcome)) = []
                \/ notifications (callbacks (k outcome)) = [n]).
    { rewrite K. destruct outcome as [|[|message]]; simpl;
        [destruct (onSuccess props)| |]; simpl; auto. }
    split.
    + intros n' [Hn | Hn]%in_app_or; [now apply N|].
      destruct C as [C | C]; rewrite C in Hn; [destruct Hn|].
      destruct Hn as [<- | []]. eauto.
    + destruct C as [C | C]; rewrite C; simpl; lia.
  - destruct (nth_error (timers w) i) as [[cb ms]|] eqn:Hi; [|discriminate].
    intros [= <-].
    unfold accounted. cbn [perform state inflight calls].
    assert (C : notifications (callbacks (runTimer props cb)) = []).
    { destruct cb; simpl; destruct (onClose props); reflexivity. }
    rewrite deposits_app, deposits_callbacks, app_nil_r, notifications_app,
      C, app_nil_r.
    split; [now apply reach_timer|].
    split; [exact I|split; [exact D|split; [exact N|exact L]]].
Qed.

(** Both invariants hold at boot and along every run. *)
Lemma run_invariant actions : forall w w',
  (idle w \/ busy ctx props w \/ done props w) /\ accounted ctx props w ->
  steps ctx props actions w = Some w' ->
  (idle w' \/ busy ctx props w' \/ done props w') /\ accounted ctx props w'.
Proof.
  induction actions as [|a actions IH]; simpl; intros w w' [Ph Ac].
  - intros [= <-]. auto.
  - destruct (step ctx props a w) as [w1|] eqn:E; [|discriminate].
    apply IH. split;
      [exact (step_phase a w w1 Ph E) | exact (step_accounted a w w1 Ac E)].
Qed.

Lemma boot_invariant :
  (idle (boot ctx) \/ busy ctx props (boot ctx) \/ done props (boot ctx))
  /\ accounted ctx props (boot ctx).
Proof.
  split.
  - left. unfold idle, boot, mount, selectDefault. simpl.
    destruct (defaultMethod ctx); simpl; auto.
  - unfold accounted, boot. simpl.
    split; [apply reach_mount|].
    repeat split; try contradiction. lia.
Qed.

Lemma history_invariant actions w :
  steps ctx props actions (boot ctx) = Some w ->
  (idle w \/ busy ctx props w \/ done props w) /\ accounted ctx props w.
Proof. apply run_invariant, boot_invariant. Qed.

End Preservation.

(** A sample run: type an amount, submit, the deposit resolves. *)
Lemma sample_run :
  steps oneCard bothCallbacks
    [User (Change "25.5"); User Submit; Settle 0 Resolved] (boot oneCard)
  = Some {| state := {| amount := "25.5"; selectedMethodId := "m1";
                        isProcessing := false; error := None;
                        success := true |};
            inflight := [];
            timers := [(ResetForm, 2000%Z)];
            calls := [Deposited (parseFloat "25.5") "m1";
                      Notified (parseFloat "25.5")] |}.
Proof. vm_compute. reflexivity. Qed.

(** X11.  Along every run of user events, settlements and timer firings
    from the first render, the component is in one of three phases:
    idle (form shown, no deposit call pending, no timer armed), busy
    (processing flag set, no error, exactly one deposit call pending,
    made with the amount still shown), or done (success flag set, no
    error, nothing pending but the one reset timer of 2000 ms). *)
Theorem three_phases ctx props actions w :
  steps ctx props actions (boot ctx) = Some w ->
  idle w \/ busy ctx props w \/ done props w.
Proof. intros H. apply (history_invariant ctx props actions w H). Qed.

Lemma three_phases_witness :
  match steps oneCard bothCallbacks
          [User (Change "25.5"); User Submit; Settle 0 Resolved]
          (boot oneCard) with
  | Some w => idle w \/ busy oneCard bothCallbacks w \/ done bothCallbacks w
  | None => False
  end.
Proof.
  rewrite sample_run.
  exact (three_phases oneCard bothCallbacks _ _ sample_run).
Defined.

(** X12.  Along every run at most one deposit call is pending and at
    most one timer is armed; the processing flag is set exactly while a
    call is pending and the success flag exactly while the timer is
    armed, so never both; and while a call is pending no user event
    calls the deposit operation or changes the amount text. *)
Theorem one_deposit_at_a_time ctx props actions w :
  steps ctx props actions (boot ctx) = Some w ->
  List.length (inflight w) <= 1
  /\ List.length (timers w) <= 1
  /\ (isProcessing (state w) = true <-> inflight w <> [])
  /\ (success (state w) = true <-> timers w <> [])
  /\ isProcessing (state w) && success (state w) = false
  /\ (inflight w <> [] ->
      forall ev,
        depositCalls (handleEvent ctx props (state w) ev) = []
        /\ amount (run (before (handleEvent ctx props (state w) ev))
                       (state w))
           = amount (state w)).
Proof.
  intros H. destruct (history_invariant ctx props actions w H) as [Ph _].
  destruct Ph as [(Hp & Hs & Hi & Ht)
                 | [(Hp & Hs & He & Ht & G & m & Hi & LD)
                   | (Hp & Hs & He & Hi & Ht & LD & LN)]];
    rewrite Hp, Hs, Hi, Ht; simpl;
    (split; [lia|]); (split; [lia|]);
    (split; [split; [discriminate || congruence | congruence]|]);
    (split; [split; [discriminate || congruence | congruence]|]);
    (split; [reflexivity|]); try congruence.
  intros _ ev.
  destruct (handleEvent_outcomes ctx props (state w) ev)
    as [(effs & E & Q) | [(_ & P & _) | (_ & P & _)]];
    [|congruence|congruence].
  rewrite E. split; [reflexivity|]. simpl.
  destruct Q as [-> | [-> | [(_ & pm & _ & ->) | (_ & P & _)]]];
    [reflexivity | reflexivity | reflexivity | congruence].
Qed.

Lemma one_deposit_at_a_time_witness :
  let w := {| state := {| amount := "25.5"; selectedMethodId := "m1";
                          isProcessing := true; error := None;
                          success := false |};
              inflight := [(parseFloat "25.5", "m1",
                            afterAwait oneCard bothCallbacks
                              (parseFloat "25.5"))];
              timers := [];
              calls := [Deposited (parseFloat "25.5") "m1"] |} in
  steps oneCard bothCallbacks [User (Change "25.5"); User Submit]
    (boot oneCard) = Some w
  /\ List.length (inflight w) <= 1
  /\ List.length (timers w) <= 1
  /\ (isProcessing (state w) = true <-> inflight w <> [])
  /\ (success (state w) = true <-> timers w <> [])
  /\ isProcessing (state w) && success (state w) = false
  /\ (inflight w <> [] ->
      forall ev,
        depositCalls (handleEvent oneCard bothCallbacks (state w) ev) = []
        /\ amount (run (before (handleEvent oneCard bothCallbacks
                                  (state w) ev)) (state w))
           = amount (state w)).
Proof.
  cbv zeta.
  assert (E : steps oneCard bothCallbacks [User (Change "25.5"); User Submit]
                (boot oneCard)
              = Some {| state := {| amount := "25.5";
                                    selectedMethodId := "m1";
                                    isProcessing := true; error := None;
                                    success := false |};
                        inflight := [(parseFloat "25.5", "m1",
                                      afterAwait oneCard bothCallbacks
                                        (parseFloat "25.5"))];
                        timers := [];
                        calls := [Deposited (parseFloat "25.5") "m1"] |})
    by reflexivity.
  split; [exact E|].
  exact (one_deposit_at_a_time oneCard bothCallbacks _ _ E).
Defined.

(** X13.  Whenever the confirmation is shown, the amount it shows is the
    amount of the last deposit call, and, with a success callback, the
    amount of the last success notification. *)
Theorem confirmation_shows_deposited_amount ctx props actions w :
  steps ctx props actions (boot ctx) = Some w ->
  success (state w) = true ->
  render ctx (state w) = Confirmation (parseFloat (amount (state w)))
  /\ (exists m, lastDeposit (calls w)
                = Some (parseFloat (amount (state w)), m))
  /\ (if onSuccess props
      then lastNotification (calls w) = Some (parseFloat (amount (state w)))
      else True).
Proof.
  intros H S. destruct (history_invariant ctx props actions w H) as [Ph _].
  destruct Ph as [(Hp & Hs & Hi & Ht)
                 | [(Hp & Hs & He & Ht & G & m & Hi & LD)
                   | (Hp & Hs & He & Hi & Ht & LD & LN)]];
    [congruence | congruence |].
  split; [unfold render; now rewrite Hs | auto].
Qed.

Lemma confirmation_shows_deposited_amount_witness :
  match steps oneCard bothCallbacks
          [User (Change "25.5"); User Submit; Settle 0 Resolved]
          (boot oneCard) with
  | Some w =>
      render oneCard (state w) = Confirmation (parseFloat "25.5")
      /\ (exists m, lastDeposit (calls w) = Some (parseFloat "25.5", m))
      /\ lastNotification (calls w) = Some (parseFloat "25.5")
  | None => False
  end.
Proof.
  rewrite sample_run.
  exact (confirmation_shows_deposited_amount oneCard bothCallbacks _ _
           sample_run eq_refl).
Defined.

(** X14.  The confirmation always ends the same way.  While it is shown
    only the close button does anything; its timer is armed, and when it
    fires the component is idle again with an empty amount text and a
    disabled submit button, and the close callback, when given, has been
    called once more. *)
Theorem confirmation_resets_form ctx props actions w :
  steps ctx props actions (boot ctx) = Some w ->
  success (state w) = true ->
  (forall ev, ev <> ClickClose ->
              handleEvent ctx props (state w) ev = Finished [])
  /\ exists w',
       step ctx props (Fire 0) w = Some w'
       /\ idle w'
       /\ amount (state w') = ""
       /\ submitDisabled (state w') = true
       /\ calls w' = calls w ++ (if onClose props then [Closed] else []).
Proof.
  intros H S. destruct (history_invariant ctx props actions w H) as [Ph _].
  destruct Ph as [(Hp & Hs & Hi & Ht)
                 | [(Hp & Hs & He & Ht & G & m & Hi & LD)
                   | (Hp & Hs & He & Hi & Ht & LD & LN)]];
    [congruence | congruence |].
  split.
  - intros ev Hev. unfold handleEvent, render. rewrite Hs.
    destruct ev; [reflexivity | reflexivity | reflexivity | contradiction].
  - unfold step. rewrite Ht. cbn [nth_error remove_nth].
    eexists. split; [reflexivity|].
    unfold idle, submitDisabled, runTimer.
    destruct (onClose props); simpl; rewrite ?Hp, ?Hi;
      repeat split; reflexivity.
Qed.

Lemma confirmation_resets_form_witness :
  match steps oneCard bothCallbacks
          [User (Change "25.5"); User Submit; Settle 0 Resolved]
          (boot oneCard) with
  | Some w =>
      (forall ev, ev <> ClickClose ->
                  handleEvent oneCard bothCallbacks (state w) ev = Finished [])
      /\ exists w',
           step oneCard bothCallbacks (Fire 0) w = Some w'
           /\ idle w'
           /\ amount (state w') = ""
           /\ submitDisabled (state w') = true
           /\ calls w' = calls w ++ [Closed]
  | None => False
  end.
Proof.
  rewrite sample_run.
  exact (confirmation_resets_form oneCard bothCallbacks _ _
           sample_run eq_refl).
Defined.

(** X9.  Along every run, when the pending deposit call is rejected,
    with whatever value, the component is idle again, the amount text is
    still the amount of the rejected call, and the submit button is
    enabled; a submit then calls the deposit operation again with that
    amount and with the method id selected at that moment (a method
    clicked while the call was pending replaces the one submitted
    before), provided a method is selected or none is listed. *)
Theorem retry_after_failure ctx props actions w err :
  steps ctx props actions (boot ctx) = Some w ->
  inflight w <> [] ->
  exists m w',
    inflight w = [(parseFloat (amount (state w)), m,
                   afterAwait ctx props (parseFloat (amount (state w))))]
    /\ step ctx props (Settle 0 (Rejected err)) w = Some w'
    /\ idle w'
    /\ amount (state w') = amount (state w)
    /\ selectedMethodId (state w') = selectedMethodId (state w)
    /\ submitDisabled (state w') = false
    /\ handleEvent ctx props (state w') Submit
       = handleSubmit ctx props (state w')
    /\ (selectedMethodId (state w) <> "" \/ paymentMethods ctx = [] ->
        depositCalls (handleEvent ctx props (state w') Submit)
        = [(parseFloat (amount (state w)), selectedMethodId (state w))]).
Proof.
  intros H NE. destruct (history_invariant ctx props actions w H) as [Ph _].
  destruct Ph as [(Hp & Hs & Hi & Ht)
                 | [(Hp & Hs & He & Ht & G & m & Hi & LD)
                   | (Hp & Hs & He & Hi & Ht & LD & LN)]];
    [congruence | | congruence].
  exists m. unfold step. rewrite Hi. cbn [nth_error remove_nth].
  eexists. split; [reflexivity|]. split; [reflexivity|].
  set (post := afterAwait ctx props (parseFloat (amount (state w)))
                 (Rejected err)).
  assert (F : amount (run post (state w)) = amount (state w)
              /\ selectedMethodId (run post (state w))
                 = selectedMethodId (state w)
              /\ isProcessing (run post (state w)) = false
              /\ success (run post (state w)) = success (state w)
              /\ timeouts post = []).
  { unfold post. destruct err as [|message]; simpl; auto. }
  destruct F as (Fa & Fm & Fp & Fs & Ft).
  cbn [perform state inflight timers calls].
  assert (D : submitDisabled (run post (state w)) = false).
  { unfold submitDisabled. rewrite Fp, Fa.
    pose proof G as G'. apply gt_zero_valid in G'.
    apply orb_false_elim in G' as [_ ->].
    destruct (amount (state w)); [discriminate G | reflexivity]. }
  assert (E : handleEvent ctx props (run post (state w)) Submit
              = handleSubmit ctx props (run post (state w))).
  { unfold handleEvent, render. rewrite Fs, Hs. cbn [buttonDisabled].
    now rewrite D. }
  split; [unfold idle, perform; cbn [state inflight timers];
          rewrite Fp, Fs, Hs, Ht, Ft; auto|].
  unfold perform; cbn [state].
  split; [exact Fa|]. split; [exact Fm|]. split; [exact D|].
  split; [exact E|].
  intros Sel. rewrite E.
  rewrite <- Fa in G. rewrite <- Fm in Sel.
  rewrite (handleSubmit_dispatch ctx props _ G Sel).
  cbn [depositCalls]. now rewrite Fa, Fm.
Qed.

Lemma retry_after_failure_witness :
  let w := {| state := {| amount := "25.5"; selectedMethodId := "m2";
                          isProcessing := true; error := None;
                          success := false |};
              inflight := [(parseFloat "25.5", "m1",
                            afterAwait cardAndPaypal bothCallbacks
                              (parseFloat "25.5"))];
              timers := [];
              calls := [Deposited (parseFloat "25.5") "m1"] |} in
  steps cardAndPaypal bothCallbacks
    [User (Change "25.5"); User Submit; User (ClickMethod 1)]
    (boot cardAndPaypal) = Some w
  /\ exists m w',
       inflight w = [(parseFloat (amount (state w)), m,
                      afterAwait cardAndPaypal bothCallbacks
                        (parseFloat (amount (state w))))]
       /\ step cardAndPaypal bothCallbacks (Settle 0 (Rejected Nullish)) w
          = Some w'
       /\ idle w'
       /\ amount (state w') = amount (state w)
       /\ selectedMethodId (state w') = selectedMethodId (state w)
       /\ submitDisabled (state w') = false
       /\ handleEvent cardAndPaypal bothCallbacks (state w') Submit
          = handleSubmit cardAndPaypal bothCallbacks (state w')
       /\ (selectedMethodId (state w) <> "" \/ paymentMethods cardAndPaypal = [] ->
           depositCalls (handleEvent cardAndPaypal bothCallbacks
                           (state w') Submit)
           = [(parseFloat (amount (state w)), selectedMethodId (state w))]).
Proof.
  cbv zeta.
  assert (E : steps cardAndPaypal bothCallbacks
                [User (Change "25.5"); User Submit; User (ClickMethod 1)]
                (boot cardAndPaypal)
              = Some {| state := {| amount := "25.5";
                                    selectedMethodId := "m2";
                                    isProcessing := true; error := None;
                                    success := false |};
                        inflight := [(parseFloat "25.5", "m1",
                                      afterAwait cardAndPaypal bothCallbacks
                                        (parseFloat "25.5"))];
                        timers := [];
                        calls := [Deposited (parseFloat "25.5") "m1"] |})
    by reflexivity.
  split; [exact E|].
  apply (retry_after_failure cardAndPaypal bothCallbacks _ _ Nullish E).
  discriminate.
Defined.



End Phases.
